(** * whoistop: a shallow embedding of [src/whoistop.py]

    The script enriches a list of [.br] domains: it normalises the raw
    strings ([clean_domains]), queries the RDAP service, mines the reply
    for a tax identifier, a name and an e-mail ([extract_key_info]),
    queries the tax registry when the identifier has fourteen digits and
    appends one row per domain to a CSV table ([save_to_csv]), pacing the
    loop with timed pauses ([main]).

    Conventions of the embedding.
    - A Python [str] is a Rocq [string], one character per code point
      below 256; [\D], [str.strip] and [str.lower] act on these code
      points as Python does.
    - A decoded JSON document is a value of [json]; Python's [None] is
      [JNull].  Operations of the dynamically typed source that can raise
      ([x[i]], [x.get], [len], [in], iteration) return [result].
    - The file system, the global counter, the wall clock and everything
      the process does to the outside (requests, pauses, log lines, table
      rewrites) live in a [World]; procedures are state transformers that
      may stop with an exception.
    - Time is a rational number of seconds: a request advances the clock
      by the latency of the service, [time.sleep] by its argument, and
      nothing else takes time. *)

From Stdlib Require Import List String Ascii Bool Arith ZArith QArith Qminmax Lia Lqa.
Import ListNotations.

Local Close Scope Q_scope.
Local Open Scope string_scope.
Local Open Scope list_scope.
Local Open Scope nat_scope.

(** ** Text primitives used by the source *)

Module Text.

(** [str.isspace] below code point 256: TAB..CR, FS..US, the blank, NEL
    and the no-break space. *)
Definition is_space (c : ascii) : bool :=
  let n := nat_of_ascii c in
  ((9 <=? n) && (n <=? 13)) || ((28 <=? n) && (n <=? 32)) ||
  (n =? 133) || (n =? 160).

(** [\d] below code point 256: the ten ASCII digits. *)
Definition is_digit (c : ascii) : bool :=
  let n := nat_of_ascii c in (48 <=? n) && (n <=? 57).

(** [str.lower] on one character below code point 256: A..Z, and the
    Latin-1 capitals U+00C0..U+00DE but for the multiplication sign. *)
Definition lower_char (c : ascii) : ascii :=
  let n := nat_of_ascii c in
  if ((65 <=? n) && (n <=? 90)) ||
     ((192 <=? n) && (n <=? 222) && negb (n =? 215))
  then ascii_of_nat (n + 32) else c.

Fixpoint lower (s : string) : string :=
  match s with
  | EmptyString => EmptyString
  | String c r => String (lower_char c) (lower r)
  end.

Fixpoint lstrip_by (p : ascii -> bool) (s : string) : string :=
  match s with
  | EmptyString => EmptyString
  | String c r => if p c then lstrip_by p r else s
  end.

Fixpoint rstrip_by (p : ascii -> bool) (s : string) : string :=
  match s with
  | EmptyString => EmptyString
  | String c r =>
      match rstrip_by p r with
      | EmptyString => if p c then EmptyString else String c EmptyString
      | r' => String c r'
      end
  end.

(** [s.strip()] *)
Definition strip (s : string) : string := rstrip_by is_space (lstrip_by is_space s).

(** [s.rstrip('/')] *)
Definition rstrip_slash (s : string) : string := rstrip_by (Ascii.eqb "/") s.

Fixpoint drop (n : nat) (s : string) : string :=
  match n, s with
  | O, _ => s
  | S _, EmptyString => EmptyString
  | S k, String _ r => drop k r
  end.

(** [s.startswith(p)] *)
Definition startswith (p s : string) : bool := String.prefix p s.

(** [re.sub('^' + p, '', s)] for a literal [p]. *)
Definition remove_prefix (p s : string) : string :=
  if startswith p s then drop (String.length p) s else s.

(** [s.endswith(p)] *)
Definition endswith (p s : string) : bool :=
  let n := String.length s in
  let k := String.length p in
  (k <=? n)%nat && String.eqb (drop (n - k) s) p.

(** [s.split(sep)] for a one-character separator: never the empty list. *)
Fixpoint split (sep : ascii) (s : string) : list string :=
  match s with
  | EmptyString => [EmptyString]
  | String c r =>
      if Ascii.eqb c sep then EmptyString :: split sep r
      else match split sep r with
           | [] => [String c EmptyString]
           | w :: ws => String c w :: ws
           end
  end.

(** [sep.join(parts)] *)
Fixpoint join (sep : string) (parts : list string) : string :=
  match parts with
  | [] => EmptyString
  | [w] => w
  | w :: ws => (w ++ sep ++ join sep ws)%string
  end.

(** [re.sub(r'\D', '', s)] *)
Fixpoint only_digits (s : string) : string :=
  match s with
  | EmptyString => EmptyString
  | String c r => if is_digit c then String c (only_digits r) else only_digits r
  end.

(** [needle in s] for two strings. *)
Fixpoint contains (needle s : string) : bool :=
  String.prefix needle s ||
  match s with
  | EmptyString => false
  | String _ r => contains needle r
  end.

(** [c in s] for a character [c]. *)
Fixpoint has_char (c : ascii) (s : string) : bool :=
  match s with
  | EmptyString => false
  | String c' r => Ascii.eqb c' c || has_char c r
  end.

(** TAB, CR and LF, which [urlsplit] deletes from the URL. *)
Definition is_unsafe (c : ascii) : bool :=
  Ascii.eqb c "009" || Ascii.eqb c "013" || Ascii.eqb c "010".

(** [url.replace(b, "")] for [b] in TAB, CR, LF *)
Fixpoint delete_unsafe (s : string) : string :=
  match s with
  | EmptyString => EmptyString
  | String c r => if is_unsafe c then delete_unsafe r else String c (delete_unsafe r)
  end.

(** [_splitnetloc(url, 2)[0]] for [url = '//' + s]: the text up to the
    first of [/], [?] and [#]. *)
Fixpoint netloc (s : string) : string :=
  match s with
  | EmptyString => EmptyString
  | String c r =>
      if Ascii.eqb c "/" || Ascii.eqb c "?" || Ascii.eqb c "#" then EmptyString
      else String c (netloc r)
  end.

End Text.

(** ** Results and exceptions *)

Inductive pyexn : Type :=
  TypeError | KeyError | IndexError | AttributeError | ValueError.

Inductive result (A : Type) : Type :=
| Ok (a : A)
| Raise (e : pyexn).

Arguments Ok {A} a.
Arguments Raise {A} e.

Definition bind {A B} (r : result A) (k : A -> result B) : result B :=
  match r with
  | Ok a => k a
  | Raise e => Raise e
  end.

Notation "x <- r ;; k" := (bind r (fun x => k))
  (at level 61, r at next level, right associativity).

(** ** Domain Normalizer: [clean_domains] *)

(** [xs[-3:]] *)
Definition last3 {A} (xs : list A) : list A := skipn (List.length xs - 3) xs.

Section Normalizer.

(** What the URL library makes of a host part that holds both an opening
    and a closing square bracket: [true] when it accepts it.  Releases
    differ here (older ones accept every such host part, newer ones only
    an IPv6 or IPvFuture literal with nothing around it), so the check is
    left open. *)
Variable bracketed_netloc_ok : string -> bool.

(** [urlparse('http://' + domain).netloc]: TAB, CR and LF are deleted,
    the host part runs up to the first of [/], [?] and [#]; a host part
    with one kind of square bracket but not the other, or one that the
    library's check of bracketed hosts refuses, raises ValueError. *)
Definition urlparse_netloc (domain : string) : result string :=
  let netloc := Text.netloc (Text.delete_unsafe domain) in
  let opens := Text.has_char "[" netloc in
  let closes := Text.has_char "]" netloc in
  if (opens && negb closes) || (closes && negb opens) then Raise ValueError
  else if opens && closes && negb (bracketed_netloc_ok netloc) then Raise ValueError
  else Ok netloc.

(** The body of the loop of [clean_domains], up to the suffix test. *)
Definition clean_domain (domain : string) : result string :=
  let domain := Text.lower (Text.strip domain) in
  let domain :=
    if Text.startswith "https://" domain then Text.drop 8 domain
    else Text.remove_prefix "http://" domain in
  let domain := Text.rstrip_slash domain in
  let domain := Text.remove_prefix "www." domain in
  netloc <- urlparse_netloc domain ;;
  let domain_parts := Text.split "." netloc in
  Ok (if (2 <? List.length domain_parts)%nat
      then Text.join "." (last3 domain_parts)
      else Text.join "." domain_parts).

(** The loop stops at the first entry on which [urlparse] raises. *)
Fixpoint clean_domains (domains : list string) : result (list string) :=
  match domains with
  | [] => Ok []
  | domain :: rest =>
      domain <- clean_domain domain ;;
      cleaned_domains <- clean_domains rest ;;
      Ok (if Text.endswith ".br" domain
          then domain :: cleaned_domains
          else cleaned_domains)
  end.


End Normalizer.

Module Urllib.

(** A release of the library without a check of bracketed hosts. *)
Definition any_brackets (netloc : string) : bool := true.


End Urllib.

(** ** Decoded JSON documents and the dynamic operations on them *)

(** What [response.json()] and the source's own literals can be. *)
#[warnings="-register-all"]
Inductive json : Type :=
| JNull
| JBool (b : bool)
| JNum (q : Q)
| JStr (s : string)
| JList (xs : list json)
| JDict (kvs : list (string * json)).

Module Py.

Fixpoint lookup (k : string) (kvs : list (string * json)) : option json :=
  match kvs with
  | [] => None
  | (k', v) :: rest => if String.eqb k k' then Some v else lookup k rest
  end.

Fixpoint chars (s : string) : list json :=
  match s with
  | EmptyString => []
  | String c r => JStr (String c EmptyString) :: chars r
  end.

(** [bool(v)] *)
Definition truthy (v : json) : bool :=
  match v with
  | JNull => false
  | JBool b => b
  | JNum q => negb (Qeq_bool q 0)
  | JStr s => negb (String.eqb s "")
  | JList xs => match xs with [] => false | _ => true end
  | JDict kvs => match kvs with [] => false | _ => true end
  end.

(** [v == s] for a string literal [s] *)
Definition eq_str (v : json) (s : string) : bool :=
  match v with
  | JStr t => String.eqb t s
  | _ => false
  end.

(** [v.get(k, default)]: only a dict has the method. *)
Definition get (v : json) (k : string) (default : json) : result json :=
  match v with
  | JDict kvs => Ok (match lookup k kvs with Some x => x | None => default end)
  | _ => Raise AttributeError
  end.

(** [v[i]] for an integer literal [i >= 0] *)
Definition index (v : json) (i : nat) : result json :=
  match v with
  | JList xs => match nth_error xs i with Some x => Ok x | None => Raise IndexError end
  | JStr s => match nth_error (chars s) i with Some x => Ok x | None => Raise IndexError end
  | JDict _ => Raise KeyError
  | _ => Raise TypeError
  end.

(** [v[k]] for a string literal [k] *)
Definition item (v : json) (k : string) : result json :=
  match v with
  | JDict kvs => match lookup k kvs with Some x => Ok x | None => Raise KeyError end
  | _ => Raise TypeError
  end.

(** [len(v)] *)
Definition len (v : json) : result nat :=
  match v with
  | JList xs => Ok (List.length xs)
  | JStr s => Ok (String.length s)
  | JDict kvs => Ok (List.length kvs)
  | _ => Raise TypeError
  end.

(** The values [for x in v] runs through. *)
Definition iter (v : json) : result (list json) :=
  match v with
  | JList xs => Ok xs
  | JStr s => Ok (chars s)
  | JDict kvs => Ok (map (fun kv => JStr (fst kv)) kvs)
  | _ => Raise TypeError
  end.

(** [s in v] for a string literal [s] *)
Definition str_in (s : string) (v : json) : result bool :=
  match v with
  | JDict kvs => Ok (match lookup s kvs with Some _ => true | None => false end)
  | JList xs => Ok (existsb (fun x => eq_str x s) xs)
  | JStr t => Ok (Text.contains s t)
  | _ => Raise TypeError
  end.

(** [isinstance(v, dict)] *)
Definition is_dict (v : json) : bool :=
  match v with
  | JDict _ => true
  | _ => false
  end.

(** [for x in xs: s = body(x, s)] *)
Fixpoint for_each {S : Type} (xs : list json) (body : json -> S -> result S) (s : S)
  : result S :=
  match xs with
  | [] => Ok s
  | x :: rest => s' <- body x s ;; for_each rest body s'
  end.

End Py.

(** ** Registrant Extractor: [extract_key_info] *)

(** The dict the extractor returns, one field per key. *)
Record key_info : Type := KeyInfo {
  email_rdap : json;
  cpf_cnpj : json;
  name : json
}.

Definition NOT_AVAILABLE : json := JStr "Not available".
Definition ERROR : json := JStr "Error".

(** [v if v else 'Not available'] *)
Definition or_not_available (v : json) : json :=
  if Py.truthy v then v else NOT_AVAILABLE.

(** [entity.get('vcardArray', [[]])[1]] *)
Definition vcard_of (entity : json) : result json :=
  va <- Py.get entity "vcardArray" (JList [JList []]) ;;
  Py.index va 1.

(** [vcard[1][3] if len(vcard) > 1 and len(vcard[1]) > 3 else 'Not available'] *)
Definition name_of_vcard (vcard : json) : result json :=
  n <- Py.len vcard ;;
  if 1 <? n then
    fn <- Py.index vcard 1 ;;
    m <- Py.len fn ;;
    if 3 <? m then
      fn <- Py.index vcard 1 ;;
      Py.index fn 3
    else Ok NOT_AVAILABLE
  else Ok NOT_AVAILABLE.

(** [public_id['type'] in ['cpf', 'cnpj']] *)
Definition typed_cpf_cnpj (public_id : json) : result bool :=
  ty <- Py.item public_id "type" ;;
  Ok (Py.eq_str ty "cpf" || Py.eq_str ty "cnpj").

(** The loop over [publicIds]: every match overwrites [cpf_cnpj]. *)
Definition scan_public_id (public_id : json) (cpf : json) : result json :=
  hit <- typed_cpf_cnpj public_id ;;
  if hit then Py.item public_id "identifier" else Ok cpf.

(** The loop over a contact card: the first row headed ["email"] sets
    [email_rdap] and leaves the loop ([break]). *)
Fixpoint scan_card (rows : list json) (email : json) : result json :=
  match rows with
  | [] => Ok email
  | item :: rest =>
      h <- Py.index item 0 ;;
      if Py.eq_str h "email" then Py.index item 3 else scan_card rest email
  end.

Definition scan_sub_entity (sub_entity : json) (email : json) : result json :=
  vcard <- vcard_of sub_entity ;;
  rows <- Py.iter vcard ;;
  scan_card rows email.

(** The body of the loop over the top-level entities. *)
Definition scan_entity (entity : json) (st : key_info) : result key_info :=
  roles <- Py.get entity "roles" (JList []) ;;
  registrant <- Py.str_in "registrant" roles ;;
  st <- (if registrant then
           vcard <- vcard_of entity ;;
           nm <- name_of_vcard vcard ;;
           pids <- Py.get entity "publicIds" (JList []) ;;
           pids <- Py.iter pids ;;
           cpf <- Py.for_each pids scan_public_id (cpf_cnpj st) ;;
           Ok (KeyInfo (email_rdap st) cpf nm)
         else Ok st) ;;
  subs <- Py.get entity "entities" (JList []) ;;
  subs <- Py.iter subs ;;
  email <- Py.for_each subs scan_sub_entity (email_rdap st) ;;
  Ok (KeyInfo email (cpf_cnpj st) (name st)).

Definition extract_key_info (rdap_info : json) : result key_info :=
  tagged <- Py.str_in "error" rdap_info ;;
  if tagged then Ok (KeyInfo ERROR ERROR ERROR)
  else
    entities <- Py.get rdap_info "entities" (JList []) ;;
    entities <- Py.iter entities ;;
    st <- Py.for_each entities scan_entity (KeyInfo JNull JNull JNull) ;;
    Ok (KeyInfo (or_not_available (email_rdap st))
                (or_not_available (cpf_cnpj st))
                (or_not_available (name st))).

(** [re.sub(r'\D', '', cnpj)]: the pattern accepts text only. *)
Definition sanitize_cnpj (cnpj : json) : result string :=
  match cnpj with
  | JStr s => Ok (Text.only_digits s)
  | _ => Raise TypeError
  end.

(** ** The world the script runs in *)

(** The flattened row [save_to_csv] builds.  ['Full Address'] is kept as
    its five components (street, number, district, municipality, state)
    in the order the source joins them with [", "]. *)
Record row : Type := Row {
  Domain : string;
  Registration_Name : json;
  Trade_Name : json;
  Full_Address : list json;
  CEP : json;
  Phone : json;
  Status : json;
  Social_Capital : json;
  Partner_1_Name : json;
  Partner_1_Qualification : json;
  Partner_2_Name : json;
  Partner_2_Qualification : json;
  RDAP_Email : json;
  ReceitaWS_Email : json
}.

Inductive level : Type := INFO | WARNING | ERROR_LEVEL.

(** One constructor per [logging] call of the source, named by line. *)
Inductive message : Type :=
| RdapRequestFailed (dominio err : string)       (* line 26 *)
| CnpjRequestFailed (cnpj err : string)          (* line 37 *)
| AlreadyInTable (dominio : string)              (* lines 107 and 175 *)
| RowSaved (dominio : string)                    (* line 130 *)
| Processing (dominio : string)                  (* line 179 *)
| RdapRetrieved (dominio : string)               (* line 186 *)
| InfoSaved (dominio : string)                   (* line 197 *)
| InfoNotSaved (dominio : string)                (* line 199 *)
| ReceitaError (dominio : string) (err : json)   (* line 201 *)
| NotAValidCnpj (dominio : string)               (* line 203 *)
| CnpjNotFound (dominio : string)                (* line 205 *)
| RdapError (dominio : string) (err : json)      (* line 207 *)
| ExtendedPause (minutes count : Z)              (* line 216 *)
| InputUnreadable.                               (* line 162 *)

(** What the process does to the outside, in the order it does it.  A
    request records the time the service took to answer. *)
Inductive event : Type :=
| Request (url : string) (latency : Q)
| Sleep (seconds : Q)
| Log (lvl : level) (msg : message)
| WriteCsv (rows : list row).

Record World : Type := MkWorld {
  csv_file : option (list row);   (* informacoes_empresa.csv, if it exists *)
  CONTADOR_SUCESSO : Z;
  clock : Q;                      (* what time.time() reads *)
  journal : list event
}.

(** What [requests.get(url)] followed by [raise_for_status()] and
    [json()] comes to. *)
Inductive outcome : Type :=
| Payload (doc : json)
| RequestException (description : string).

Record reply : Type := Reply { answer : outcome; latency : Q }.

(** Procedures: state transformers that may stop with an exception; the
    world reached so far is kept either way. *)
Definition proc (A : Type) : Type := World -> result A * World.

Definition ret {A} (a : A) : proc A := fun w => (Ok a, w).

Definition throw {A} (e : pyexn) : proc A := fun w => (Raise e, w).

Definition seq {A B} (c : proc A) (k : A -> proc B) : proc B :=
  fun w =>
    match c w with
    | (Ok a, w') => k a w'
    | (Raise e, w') => (Raise e, w')
    end.

Definition lift {A} (r : result A) : proc A := fun w => (r, w).

Notation "x <~ c ;; k" := (seq c (fun x => k))
  (at level 61, c at next level, right associativity).
Notation "c ;;; k" := (seq c (fun _ => k))
  (at level 61, right associativity).

Definition emit (e : event) : proc unit :=
  fun w => (Ok tt, MkWorld (csv_file w) (CONTADOR_SUCESSO w) (clock w) (journal w ++ [e])).

Definition logging (lvl : level) (msg : message) : proc unit := emit (Log lvl msg).

(** [time.time()] *)
Definition time_time : proc Q := fun w => (Ok (clock w), w).

(** [time.sleep(seconds)] *)
Definition time_sleep (seconds : Q) : proc unit :=
  fun w => (Ok tt, MkWorld (csv_file w) (CONTADOR_SUCESSO w)
                           (clock w + seconds)%Q (journal w ++ [Sleep seconds])).

(** [for x in xs: body(x)] *)
Fixpoint for_in {X : Type} (xs : list X) (body : X -> proc unit) : proc unit :=
  match xs with
  | [] => ret tt
  | x :: rest => body x ;;; for_in rest body
  end.

Definition ATRASO_BASE : Z := 60.
Definition ATRASO_PERSONALIZADO : Z := 5.

(** [pd.read_csv(filename)], the empty frame standing for a missing file.

    The table is held as the sequence of its rows, each as it was when it
    was appended.  pandas infers the type of every column anew on each
    read, so a rewrite can put the cells of rows stored earlier in another
    form (an integer without its leading zeros, say); the model does not
    follow the text of stored cells.  What the program does with the frame
    it reads is to test a key for membership (lines 106 and 174) and to
    write the frame back with one more row.  A key that ends in [.br], as
    every key the program looks up or stores does, reads back as the text
    that was written, whatever the other keys are, and reading keeps the
    number and the order of the rows: so the tests made here are the tests
    the program makes, and the Domain column and the number of rows are
    those of the file. *)
Definition read_csv : proc (list row) :=
  fun w => (Ok (match csv_file w with Some rows => rows | None => [] end), w).

(** [df.to_csv(filename)]: a rewrite of the whole file. *)
Definition to_csv (rows : list row) : proc unit :=
  fun w => (Ok tt, MkWorld (Some rows) (CONTADOR_SUCESSO w) (clock w)
                           (journal w ++ [WriteCsv rows])).

(** [CONTADOR_SUCESSO += 1] *)
Definition count_success : proc unit :=
  fun w => (Ok tt, MkWorld (csv_file w) (CONTADOR_SUCESSO w + 1)%Z (clock w) (journal w)).

(** Reading the global [CONTADOR_SUCESSO] *)
Definition contador : proc Z := fun w => (Ok (CONTADOR_SUCESSO w), w).

(** [dominio in df['Domain'].values], [dominio in dominios_existentes] *)
Definition domain_in (dominio : string) (domains : list string) : bool :=
  existsb (String.eqb dominio) domains.

(** ** Company Record Formatter: [format_cnpj_info] *)

Definition format_cnpj_info (info : json) : result json :=
  nome <- Py.get info "nome" NOT_AVAILABLE ;;
  fantasia <- Py.get info "fantasia" NOT_AVAILABLE ;;
  logradouro <- Py.get info "logradouro" NOT_AVAILABLE ;;
  numero <- Py.get info "numero" NOT_AVAILABLE ;;
  bairro <- Py.get info "bairro" NOT_AVAILABLE ;;
  municipio <- Py.get info "municipio" NOT_AVAILABLE ;;
  uf <- Py.get info "uf" NOT_AVAILABLE ;;
  cep <- Py.get info "cep" NOT_AVAILABLE ;;
  telefone <- Py.get info "telefone" NOT_AVAILABLE ;;
  situacao <- Py.get info "situacao" NOT_AVAILABLE ;;
  capital_social <- Py.get info "capital_social" NOT_AVAILABLE ;;
  email <- Py.get info "email" NOT_AVAILABLE ;;
  qsa <- Py.get info "qsa" (JList []) ;;
  Ok (JDict [("nome", nome); ("fantasia", fantasia); ("logradouro", logradouro);
             ("numero", numero); ("bairro", bairro); ("municipio", municipio);
             ("uf", uf); ("cep", cep); ("telefone", telefone);
             ("situacao", situacao); ("capital_social", capital_social);
             ("email", email); ("qsa", qsa)]).

(** ** Enrichment Store: [save_to_csv] *)

(** [qsa[i].get(k, 'Not available') if len(qsa) > i else 'Not available'] *)
Definition partner (qsa : json) (i : nat) (k : string) : result json :=
  n <- Py.len qsa ;;
  if i <? n then
    p <- Py.index qsa i ;;
    Py.get p k NOT_AVAILABLE
  else Ok NOT_AVAILABLE.

Definition new_row (dominio : string) (rdap_info : key_info) (cnpj_info : json)
  : result row :=
  qsa <- Py.get cnpj_info "qsa" (JList []) ;;
  nome <- Py.get cnpj_info "nome" NOT_AVAILABLE ;;
  fantasia <- Py.get cnpj_info "fantasia" NOT_AVAILABLE ;;
  logradouro <- Py.get cnpj_info "logradouro" NOT_AVAILABLE ;;
  numero <- Py.get cnpj_info "numero" NOT_AVAILABLE ;;
  bairro <- Py.get cnpj_info "bairro" NOT_AVAILABLE ;;
  municipio <- Py.get cnpj_info "municipio" NOT_AVAILABLE ;;
  uf <- Py.get cnpj_info "uf" NOT_AVAILABLE ;;
  cep <- Py.get cnpj_info "cep" NOT_AVAILABLE ;;
  telefone <- Py.get cnpj_info "telefone" NOT_AVAILABLE ;;
  situacao <- Py.get cnpj_info "situacao" NOT_AVAILABLE ;;
  capital_social <- Py.get cnpj_info "capital_social" NOT_AVAILABLE ;;
  p1n <- partner qsa 0 "nome" ;;
  p1q <- partner qsa 0 "qual" ;;
  p2n <- partner qsa 1 "nome" ;;
  p2q <- partner qsa 1 "qual" ;;
  email <- Py.get cnpj_info "email" NOT_AVAILABLE ;;
  Ok (Row dominio nome fantasia [logradouro; numero; bairro; municipio; uf]
          cep telefone situacao capital_social p1n p1q p2n p2q
          (email_rdap rdap_info) email).

Definition save_to_csv (dominio : string) (rdap_info : key_info) (cnpj_info : json)
  : proc bool :=
  df <~ read_csv ;;
  if domain_in dominio (map Domain df) then
    logging INFO (AlreadyInTable dominio) ;;;
    ret false
  else
    r <~ lift (new_row dominio rdap_info cnpj_info) ;;
    to_csv (df ++ [r]) ;;;
    logging INFO (RowSaved dominio) ;;;
    count_success ;;;
    ret true.

(** ** Lookup clients and the Pipeline Orchestrator: [main] *)

(** ['error' in v] once [isinstance(v, dict)] holds:
    [isinstance(v, dict) and 'error' not in v]. *)
Definition succeeded (v : json) : bool :=
  Py.is_dict v &&
  match Py.str_in "error" v with
  | Ok tagged => negb tagged
  | Raise _ => false
  end.

(** [v.get('error', 'Erro desconhecido')] *)
Definition error_of (v : json) : result json :=
  Py.get v "error" (JStr "Erro desconhecido").

(** The rows of [dominios.csv] that [main] keeps: the header is skipped
    ([next(reader)]), then [row[0]] of every non-empty row.  [None] is any
    failure inside the [try] (no file, no header row). *)
Definition read_domains (input_file : option (list (list string)))
  : option (list string) :=
  match input_file with
  | None => None
  | Some [] => None
  | Some (_ :: rows) =>
      Some (flat_map (fun r => match r with [] => [] | d :: _ => [d] end) rows)
  end.

Definition RDAP_URL : string := "https://rdap.registro.br/domain/".
Definition RECEITAWS_URL : string := "https://receitaws.com.br/v1/cnpj/".

Section Orchestrator.

(** The URL library's check of bracketed hosts, as in [urlparse_netloc]. *)
Variable bracketed_netloc_ok : string -> bool.

(** The two remote services: what a request to [url] returns and how long
    it takes, given everything that happened so far. *)
Variable service : World -> string -> reply.

Definition requests_get (url : string) : proc outcome :=
  fun w =>
    let r := service w url in
    (Ok (answer r),
     MkWorld (csv_file w) (CONTADOR_SUCESSO w) (clock w + latency r)%Q
             (journal w ++ [Request url (latency r)])).

Definition consulta_rdap (dominio : string) : proc json :=
  resposta <~ requests_get (RDAP_URL ++ dominio)%string ;;
  match resposta with
  | Payload doc => ret doc
  | RequestException e =>
      logging ERROR_LEVEL (RdapRequestFailed dominio e) ;;;
      ret (JDict [("error", JStr e)])
  end.

Definition consulta_cnpj (cnpj : string) : proc json :=
  resposta <~ requests_get (RECEITAWS_URL ++ cnpj)%string ;;
  match resposta with
  | Payload doc => ret doc
  | RequestException e =>
      logging ERROR_LEVEL (CnpjRequestFailed cnpj e) ;;;
      ret (JDict [("error", JStr e)])
  end.

(** Lines 194-199 *)
Definition store (dominio : string) (key_info : key_info) (receita_info : json)
  : proc unit :=
  formatted_info <~ lift (format_cnpj_info receita_info) ;;
  saved <~ save_to_csv dominio key_info formatted_info ;;
  if saved then logging INFO (InfoSaved dominio)
  else logging INFO (InfoNotSaved dominio).

(** Lines 188-205 *)
Definition lookup_company (dominio : string) (key_info : key_info) : proc unit :=
  if Py.truthy (cpf_cnpj key_info) then
    cnpj_sanitizado <~ lift (sanitize_cnpj (cpf_cnpj key_info)) ;;
    if String.length cnpj_sanitizado =? 14 then
      receita_info <~ consulta_cnpj cnpj_sanitizado ;;
      time_sleep 10 ;;;
      if succeeded receita_info then store dominio key_info receita_info
      else
        err <~ lift (error_of receita_info) ;;
        logging ERROR_LEVEL (ReceitaError dominio err)
    else logging WARNING (NotAValidCnpj dominio)
  else logging WARNING (CnpjNotFound dominio).

(** Lines 184-207 *)
Definition after_rdap (dominio : string) (rdap_resultado : json) : proc unit :=
  if succeeded rdap_resultado then
    key_info <~ lift (extract_key_info rdap_resultado) ;;
    logging INFO (RdapRetrieved dominio) ;;;
    lookup_company dominio key_info
  else
    err <~ lift (error_of rdap_resultado) ;;
    logging ERROR_LEVEL (RdapError dominio err).

(** Lines 181-207 *)
Definition enrich (dominio : string) : proc unit :=
  rdap_resultado <~ consulta_rdap dominio ;;
  time_sleep 10 ;;;
  after_rdap dominio rdap_resultado.

(** [CONTADOR_SUCESSO > 0 and CONTADOR_SUCESSO % 5 == 0] *)
Definition pause_due (contador : Z) : bool :=
  ((0 <? contador) && (contador mod 5 =? 0))%Z.

(** Lines 210-217 *)
Definition pace (inicio_processamento : Q) : proc unit :=
  agora <~ time_time ;;
  let tempo_processamento := (agora - inicio_processamento)%Q in
  let tempo_espera := Qmax 0 (inject_Z ATRASO_BASE - tempo_processamento)%Q in
  time_sleep tempo_espera ;;;
  sucessos <~ contador ;;
  if pause_due sucessos then
    logging INFO (ExtendedPause ATRASO_PERSONALIZADO sucessos) ;;;
    time_sleep (inject_Z (ATRASO_PERSONALIZADO * 60))
  else ret tt.

(** One turn of the loop of [main]. *)
Definition iteration (dominios_existentes : list string) (dominio : string)
  : proc unit :=
  if domain_in dominio dominios_existentes then
    logging INFO (AlreadyInTable dominio)
  else
    inicio_processamento <~ time_time ;;
    logging INFO (Processing dominio) ;;;
    enrich dominio ;;;
    pace inicio_processamento.

Definition main (input_file : option (list (list string))) : proc unit :=
  match read_domains input_file with
  | None => logging ERROR_LEVEL InputUnreadable
  | Some domains =>
      cleaned_domains <~ lift (clean_domains bracketed_netloc_ok domains) ;;
      df_existente <~ read_csv ;;
      let dominios_existentes := map Domain df_existente in
      for_in cleaned_domains (iteration dominios_existentes)
  end.

End Orchestrator.

(** The process as it starts: [CONTADOR_SUCESSO = 0], nothing done yet. *)
Definition boot (csv : option (list row)) (t0 : Q) : World := MkWorld csv 0 t0 [].

(** ** Observations on worlds and journals *)

(** The table as [pd.read_csv] sees it. *)
Definition table (w : World) : list row :=
  match csv_file w with Some rows => rows | None => [] end.

(** The [Domain] column. *)
Definition domains_of (w : World) : list string := map Domain (table w).

Definition is_write (e : event) : bool :=
  match e with WriteCsv _ => true | _ => false end.

(** Number of table rewrites among some events. *)
Definition writes (evs : list event) : Z := Z.of_nat (List.length (filter is_write evs)).

(** Wall time an event takes. *)
Definition event_time (e : event) : Q :=
  match e with
  | Request _ lat => lat
  | Sleep seconds => seconds
  | _ => 0%Q
  end.

Definition duration (evs : list event) : Q :=
  fold_right (fun e acc => (event_time e + acc)%Q) 0%Q evs.

(** A request to the tax registry. *)
Definition is_receita_request (e : event) : bool :=
  match e with
  | Request url _ => String.prefix RECEITAWS_URL url
  | _ => false
  end.

(** The table only grows, by rows whose domains are new and distinct. *)
Definition grows (w w' : World) : Prop :=
  exists added,
    table w' = table w ++ added /\
    NoDup (map Domain added) /\
    (forall d, In d (map Domain added) -> ~ In d (domains_of w)).

(** The journal only grows; the counter moves by the number of rewrites
    journalled and the clock by the time the new events took. *)
Definition advances (w w' : World) : Prop :=
  exists new,
    journal w' = journal w ++ new /\
    CONTADOR_SUCESSO w' = (CONTADOR_SUCESSO w + writes new)%Z /\
    (clock w' == clock w + duration new)%Q.

(** The warning of line 205. *)
Definition says_not_found (e : event) : bool :=
  match e with
  | Log _ (CnpjNotFound _) => true
  | _ => false
  end.

(** The journal only grows, and not by the warning of line 205. *)
Definition silent (w w' : World) : Prop :=
  exists new, journal w' = journal w ++ new /\ existsb says_not_found new = false.

(** A procedure that relates every world to the one it leaves, whether it
    returns or raises. *)
Definition keeps (R : World -> World -> Prop) {A} (c : proc A) : Prop :=
  forall w, R w (snd (c w)).

(** The events of the extended pause, when it is due. *)
Definition pause_events (contador : Z) : list event :=
  if pause_due contador
  then [Log INFO (ExtendedPause ATRASO_PERSONALIZADO contador);
        Sleep (inject_Z (ATRASO_PERSONALIZADO * 60))]
  else [].

(** ** The extraction rules in the words of the specification

    The lists below enumerate, in document order, what the two scans of
    [extract_key_info] can pick.  They read the document with the same
    dynamic operations as the source and treat a failing operation as
    "nothing here". *)

Module Scan.

Definition or_nil (r : result (list json)) : list json :=
  match r with Ok xs => xs | Raise _ => [] end.

Definition or_false (r : result bool) : bool :=
  match r with Ok b => b | Raise _ => false end.

Definition or_null (r : result json) : json :=
  match r with Ok v => v | Raise _ => JNull end.

(** The top-level entities of a record. *)
Definition entities (rdap_info : json) : list json :=
  or_nil (es <- Py.get rdap_info "entities" (JList []) ;; Py.iter es).

(** The entities nested directly beneath an entity. *)
Definition sub_entities (entity : json) : list json :=
  or_nil (es <- Py.get entity "entities" (JList []) ;; Py.iter es).

(** The role list contains ["registrant"]. *)
Definition is_registrant (entity : json) : bool :=
  or_false (roles <- Py.get entity "roles" (JList []) ;; Py.str_in "registrant" roles).

Definition public_ids (entity : json) : list json :=
  or_nil (pids <- Py.get entity "publicIds" (JList []) ;; Py.iter pids).

(** A public-identifier entry typed ["cpf"] or ["cnpj"]: a dict whose
    "type" is one of these two strings. *)
Definition is_tax_id (public_id : json) : bool :=
  match public_id with
  | JDict kvs =>
      match Py.lookup "type" kvs with
      | Some (JStr ty) => String.eqb ty "cpf" || String.eqb ty "cnpj"
      | _ => false
      end
  | _ => false
  end.

Definition identifier (public_id : json) : json :=
  or_null (Py.item public_id "identifier").

(** The identifiers typed cpf/cnpj of one entity, read only when it is a
    registrant. *)
Definition entity_tax_ids (entity : json) : list json :=
  if is_registrant entity
  then map identifier (filter is_tax_id (public_ids entity))
  else [].

(** Every identifier typed cpf/cnpj of every registrant entity, in scan
    order. *)
Definition tax_ids (rdap_info : json) : list json :=
  flat_map entity_tax_ids (entities rdap_info).

(** The rows of the contact card of an entity: what the second element
    of its "vcardArray" holds, [[[]]] standing for a missing array. *)
Definition card_rows (entity : json) : list json :=
  or_nil (va <- Py.get entity "vcardArray" (JList [JList []]) ;;
          vcard <- Py.index va 1 ;;
          Py.iter vcard).

(** A card row whose first element is ["email"]. *)
Definition is_email_row (item : json) : bool :=
  or_false (h <- Py.index item 0 ;; Ok (Py.eq_str h "email")).

(** The fourth element of the first e-mail row of a card, if it has one. *)
Definition card_email (rows : list json) : list json :=
  match find is_email_row rows with
  | Some item => [or_null (Py.index item 3)]
  | None => []
  end.

(** The e-mails of the cards of the sub-entities of one entity. *)
Definition entity_emails (entity : json) : list json :=
  flat_map (fun sub_entity => card_email (card_rows sub_entity)) (sub_entities entity).

(** The e-mail of every sub-entity card that has one, in document order,
    whatever the roles. *)
Definition emails (rdap_info : json) : list json :=
  flat_map entity_emails (entities rdap_info).

End Scan.

(** ** Sample documents and services *)

Module Sample.

Definition vrow (k v : string) : json := JList [JStr k; JDict []; JStr "text"; JStr v].

Definition vcard (rows : list json) : json := JList [JStr "vcard"; JList rows].

Definition public_id (ty ident : string) : json :=
  JDict [("type", JStr ty); ("identifier", JStr ident)].

(** A registrant with a company identifier and two nested contacts, each
    with an e-mail row. *)
Definition two_contacts : json :=
  JDict [("entities", JList [
    JDict [("roles", JList [JStr "registrant"]);
           ("vcardArray", vcard [vrow "version" "4.0"; vrow "fn" "ACME LTDA"]);
           ("publicIds", JList [public_id "cnpj" "12.345.678/0001-99"]);
           ("entities", JList [
              JDict [("roles", JList [JStr "administrative"]);
                     ("vcardArray", vcard [vrow "email" "first@acme.com.br";
                                           vrow "email" "other@acme.com.br"])];
              JDict [("roles", JList [JStr "technical"]);
                     ("vcardArray", vcard [vrow "fn" "Tech";
                                           vrow "email" "second@acme.com.br"])]])]])].

(** A registrant with two tax identifiers. *)
Definition two_identifiers : json :=
  JDict [("entities", JList [
    JDict [("roles", JList [JStr "registrant"]);
           ("vcardArray", vcard [vrow "version" "4.0"; vrow "fn" "Fulano"]);
           ("publicIds", JList [public_id "cnpj" "12.345.678/0001-99";
                                public_id "other" "X";
                                public_id "cpf" "123.456.789-09"])]])].

(** A registrant whose public identifiers are the given pairs of a type
    and an identifier. *)
Definition identified (ids : list (string * string)) : json :=
  JDict [("entities", JList [
    JDict [("roles", JList [JStr "registrant"]);
           ("vcardArray", vcard [vrow "version" "4.0"; vrow "fn" "Fulano"]);
           ("publicIds", JList (map (fun p => public_id (fst p) (snd p)) ids))]])].

(** The pairs typed cpf or cnpj, in order, as identifiers. *)
Definition listed_tax_ids (ids : list (string * string)) : list json :=
  map (fun p => JStr (snd p))
      (filter (fun p => String.eqb (fst p) "cpf" || String.eqb (fst p) "cnpj") ids).

(** A company identifier followed by an individual one left empty. *)
Definition empty_last_identifier : json :=
  identified [("cnpj", "12.345.678/0001-99"); ("cpf", "")].

(** Non-error documents on which the extraction stops with an exception. *)
Definition registrant_without_card : json :=
  JDict [("entities", JList [JDict [("roles", JList [JStr "registrant"])]])].

Definition sub_entity_without_card : json :=
  JDict [("entities", JList [
    JDict [("roles", JList [JStr "technical"]);
           ("entities", JList [JDict [("roles", JList [JStr "billing"])]])]])].

Definition public_id_without_type : json :=
  JDict [("entities", JList [
    JDict [("roles", JList [JStr "registrant"]);
           ("vcardArray", vcard [vrow "version" "4.0"; vrow "fn" "ACME LTDA"]);
           ("publicIds", JList [JDict [("identifier", JStr "12.345.678/0001-99")]])]])].

Definition empty_card_row : json :=
  JDict [("entities", JList [
    JDict [("roles", JList [JStr "technical"]);
           ("entities", JList [JDict [("vcardArray", vcard [JList []])]])]])].

(** What the tax registry answers. *)
Definition company : json :=
  JDict [("nome", JStr "ACME LTDA"); ("fantasia", JStr "ACME");
         ("situacao", JStr "ATIVA");
         ("qsa", JList [JDict [("nome", JStr "FULANO"); ("qual", JStr "49-Socio")]])].

(** Both services answer: RDAP in two seconds, the tax registry in three. *)
Definition healthy (w : World) (url : string) : reply :=
  if String.prefix RDAP_URL url
  then Reply (Payload two_contacts) 2
  else Reply (Payload company) 3.

(** As [healthy], but RDAP does not know [f.com.br]. *)
Definition flaky (w : World) (url : string) : reply :=
  if String.eqb url (RDAP_URL ++ "f.com.br")
  then Reply (RequestException "404 Client Error") 1
  else healthy w url.

(** RDAP answers with records that name no entity. *)
Definition anonymous (w : World) (url : string) : reply :=
  Reply (Payload (JDict [("handle", JStr "example.com.br"); ("entities", JList [])])) 2.

(** [dominios.csv]: a header and six domains, the last one unknown to RDAP. *)
Definition six_domains : option (list (list string)) :=
  Some [["domain"]; ["a.com.br"]; ["b.com.br"]; ["c.com.br"]; ["d.com.br"];
        ["e.com.br"]; ["f.com.br"]].

Definition stored (dominio : string) : row :=
  Row dominio NOT_AVAILABLE NOT_AVAILABLE [] NOT_AVAILABLE NOT_AVAILABLE NOT_AVAILABLE
      NOT_AVAILABLE NOT_AVAILABLE NOT_AVAILABLE NOT_AVAILABLE NOT_AVAILABLE
      NOT_AVAILABLE NOT_AVAILABLE.

End Sample.

(** ** Further observations *)

Module Chars.

(** An upper-case letter: A-Z, or one of the capitals above 191. *)
Definition is_upper (c : ascii) : bool :=
  let n := nat_of_ascii c in
  ((65 <=? n) && (n <=? 90)) || ((192 <=? n) && (n <=? 222) && negb (n =? 215)).

(** One of the characters that end the authority component of a URL. *)
Definition is_delimiter (c : ascii) : bool :=
  Ascii.eqb c "/" || Ascii.eqb c "?" || Ascii.eqb c "#".

(** Every character of [s] passes [p]. *)
Fixpoint all (p : ascii -> bool) (s : string) : bool :=
  match s with
  | EmptyString => true
  | String c r => p c && all p r
  end.

(** No upper-case letter in [s]. *)
Definition lower_case (s : string) : bool := all (fun c => negb (is_upper c)) s.

(** None of [/], [?], [#] in [s]. *)
Definition delimiter_free (s : string) : bool := all (fun c => negb (is_delimiter c)) s.

End Chars.

Module Names.

(** [len(v)], zero for what has no length. *)
Definition size (v : json) : nat :=
  match Py.len v with Ok n => n | Raise _ => 0 end.

(** The contact card of an entity: the second element of its
    "vcardArray", [[[]]] standing for a missing array. *)
Definition card (entity : json) : json :=
  Scan.or_null (va <- Py.get entity "vcardArray" (JList [JList []]) ;; Py.index va 1).

(** The name rule: the fourth element of the second row of the card when
    the card has more than one row and that row more than three elements,
    "Not available" otherwise. *)
Definition card_name (vcard : json) : json :=
  let second := Scan.or_null (Py.index vcard 1) in
  if (1 <? size vcard) && (3 <? size second)
  then Scan.or_null (Py.index second 3)
  else NOT_AVAILABLE.

(** The name read from one entity: nothing when the entity is not a
    registrant. *)
Definition entity_names (entity : json) : list json :=
  if Scan.is_registrant entity then [card_name (card entity)] else [].

(** The names read from the registrant entities, in scan order. *)
Definition names (rdap_info : json) : list json :=
  flat_map entity_names (Scan.entities rdap_info).

(** A registrant entity with the given card rows and nothing else. *)
Definition registrant (rows : list (list json)) : json :=
  JDict [("roles", JList [JStr "registrant"]);
         ("vcardArray", JList [JStr "vcard"; JList (map JList rows)])].

(** A record made of such registrants. *)
Definition record (cards : list (list (list json))) : json :=
  JDict [("entities", JList (map registrant cards))].

(** The name rule on the rows of a card. *)
Definition rows_name (rows : list (list json)) : json :=
  match nth_error rows 1 with
  | Some cells => match nth_error cells 3 with Some v => v | None => NOT_AVAILABLE end
  | None => NOT_AVAILABLE
  end.

End Names.

(** The counter moves by the number of rows the table gained. *)
Definition counted (w w' : World) : Prop :=
  (Z.of_nat (List.length (table w')) - Z.of_nat (List.length (table w)) =
   CONTADOR_SUCESSO w' - CONTADOR_SUCESSO w)%Z.

(** The table gains only rows whose domain satisfies [P]. *)
Definition adds_for (P : string -> Prop) (w w' : World) : Prop :=
  exists added,
    table w' = table w ++ added /\ Forall (fun r => P (Domain r)) added.

(** The domains of a list that a run started on the table [existentes]
    does not skip. *)
Definition pending (existentes dominios : list string) : list string :=
  filter (fun d => negb (domain_in d existentes)) dominios.

(** [cnpj_info.get(k, 'Not available')] on the items of a dict. *)
Definition field_or_default (k : string) (kvs : list (string * json)) : json :=
  match Py.lookup k kvs with Some v => v | None => NOT_AVAILABLE end.

(** The thirteen keys of a formatted company record. *)
Definition FORMATTED_KEYS : list string :=
  ["nome"; "fantasia"; "logradouro"; "numero"; "bairro"; "municipio"; "uf";
   "cep"; "telefone"; "situacao"; "capital_social"; "email"; "qsa"].

Module Fixtures.

(** A registrant whose own card has an e-mail row and who has no nested
    entity. *)
Definition own_card_email : json :=
  JDict [("entities", JList [
    JDict [("roles", JList [JStr "registrant"]);
           ("vcardArray",
            Sample.vcard [Sample.vrow "version" "4.0"; Sample.vrow "fn" "ACME LTDA";
                          Sample.vrow "email" "owner@acme.com.br"]);
           ("publicIds", JList [Sample.public_id "cnpj" "12.345.678/0001-99"])]])].

(** A company record whose partner list is null. *)
Definition null_partners : json :=
  JDict [("nome", JStr "ACME LTDA"); ("qsa", JNull)].

(** A company record with three partners. *)
Definition three_partners : list (string * json) :=
  [("nome", JStr "ACME LTDA");
   ("qsa", JList [JDict [("nome", JStr "A"); ("qual", JStr "49-Socio")];
                  JDict [("nome", JStr "B")];
                  JDict [("nome", JStr "C"); ("qual", JStr "05-Administrador")]])].

End Fixtures.

(** A request goes to RDAP, or to the tax registry with fourteen digits
    after the fixed prefix. *)
Definition well_addressed (e : event) : bool :=
  match e with
  | Request url _ =>
      String.prefix RDAP_URL url ||
      (String.prefix RECEITAWS_URL url &&
       (String.length (Text.drop (String.length RECEITAWS_URL) url) =? 14) &&
       Chars.all Text.is_digit (Text.drop (String.length RECEITAWS_URL) url))
  | _ => true
  end.

(** The journal only grows, by well-addressed events. *)
Definition polite (w w' : World) : Prop :=
  exists new, journal w' = journal w ++ new /\ forallb well_addressed new = true.

Module Fixtures2.

(** A registrant whose identifier came as a JSON number. *)
Definition numeric_identifier : json :=
  JDict [("entities", JList [
    JDict [("roles", JList [JStr "registrant"]);
           ("vcardArray", Sample.vcard [Sample.vrow "version" "4.0";
                                        Sample.vrow "fn" "ACME LTDA"]);
           ("publicIds",
            JList [JDict [("type", JStr "cnpj");
                          ("identifier", JNum (inject_Z 12345678000199))]])]])].

(** RDAP answers with [numeric_identifier]. *)
Definition numeric (w : World) (url : string) : reply :=
  Reply (Payload numeric_identifier) 2.

(** RDAP answers with a record on which the extraction raises. *)
Definition malformed (w : World) (url : string) : reply :=
  Reply (Payload Sample.registrant_without_card) 2.

(** RDAP answers; the tax registry is down. *)
Definition registry_down (w : World) (url : string) : reply :=
  if String.prefix RDAP_URL url
  then Reply (Payload Sample.two_contacts) 2
  else Reply (RequestException "429 Too Many Requests") 1.

End Fixtures2.

(** Lines 137-140 of [clean_domains]: what is handed to [urlparse]. *)
Definition before_urlparse (domain : string) : string :=
  let domain := Text.lower (Text.strip domain) in
  let domain :=
    if Text.startswith "https://" domain then Text.drop 8 domain
    else Text.remove_prefix "http://" domain in
  let domain := Text.rstrip_slash domain in
  Text.remove_prefix "www." domain.

(** Lines 143-146 of [clean_domains]: the last three labels, or all. *)
Definition rejoin (domain_parts : list string) : string :=
  if 2 <? List.length domain_parts
  then Text.join "." (last3 domain_parts)
  else Text.join "." domain_parts.


(** A key that reads back from the file as the text that was written,
    whatever the other keys are: it ends in ".br", so it is neither a
    number nor a marker of a missing value, and it has no TAB, CR or LF. *)
Definition stable_key (d : string) : bool :=
  Text.endswith ".br" d && Chars.all (fun c => negb (Text.is_unsafe c)) d.

Definition stable_keys (keys : list string) : Prop :=
  Forall (fun d => stable_key d = true) keys.

(** The rewrites among some events are appends: each one writes the keys
    held so far followed by one key that is new. *)
Fixpoint appends (keys : list string) (evs : list event) (keys' : list string) : Prop :=
  match evs with
  | [] => keys' = keys
  | WriteCsv rows :: rest =>
      exists k,
        map Domain rows = keys ++ [k] /\ ~ In k keys /\ appends (keys ++ [k]) rest keys'
  | _ :: rest => appends keys rest keys'
  end.

(** The journal only grows, and the file is rewritten by appends only. *)
Definition append_only (w w' : World) : Prop :=
  exists new,
    journal w' = journal w ++ new /\ appends (domains_of w) new (domains_of w').

(** * Verification *)

(** ** The normalizer *)

Lemma bind_ok_inv {A B} (r : result A) (k : A -> result B) (b : B) :
  bind r k = Ok b -> exists a, r = Ok a /\ k a = Ok b.
Proof.
  destruct r as [a|e]; simpl; intros H; [exists a; auto | discriminate].
Qed.

Ltac bind_inv H :=
  let a := fresh "v" in
  let Ha := fresh "E" in
  apply bind_ok_inv in H as (a & Ha & H).

Lemma split_not_nil (sep : ascii) (s : string) : Text.split sep s <> [].
Proof.
  destruct s as [|c r]; simpl; [discriminate|].
  destruct (Ascii.eqb c sep); [discriminate|].
  destruct (Text.split sep r); discriminate.
Qed.

Lemma split_parts_free (sep : ascii) (s : string) :
  Forall (fun p => Text.has_char sep p = false) (Text.split sep s).
Proof.
  induction s as [|c r IH]; simpl.
  - constructor; [reflexivity|constructor].
  - destruct (Ascii.eqb c sep) eqn:Hc.
    + constructor; [reflexivity|exact IH].
    + destruct (Text.split sep r) as [|w ws]; constructor.
      * simpl. now rewrite Hc.
      * constructor.
      * inversion IH; subst. simpl. now rewrite Hc.
      * now inversion IH.
Qed.

Lemma split_free (sep : ascii) (w : string) :
  Text.has_char sep w = false -> Text.split sep w = [w].
Proof.
  induction w as [|c r IH]; simpl; [reflexivity|].
  intros H. apply orb_false_iff in H as [Hc Hr].
  rewrite Hc, (IH Hr). reflexivity.
Qed.

Lemma split_app_sep (sep : ascii) (w rest : string) :
  Text.has_char sep w = false ->
  Text.split sep (w ++ String sep rest) = w :: Text.split sep rest.
Proof.
  induction w as [|c r IH]; simpl.
  - intros _. now rewrite Ascii.eqb_refl.
  - intros H. apply orb_false_iff in H as [Hc Hr].
    rewrite Hc, (IH Hr). reflexivity.
Qed.

(** Splitting what [join] built from dot-free labels gives the labels back. *)
Lemma split_join (sep : ascii) (parts : list string) :
  parts <> [] ->
  Forall (fun p => Text.has_char sep p = false) parts ->
  Text.split sep (Text.join (String sep EmptyString) parts) = parts.
Proof.
  induction parts as [|w ws IH]; intros Hne Hfree; [congruence|].
  inversion Hfree as [|? ? Hw Hws]; subst.
  destruct ws as [|w2 ws].
  - simpl. now apply split_free.
  - change (Text.join (String sep "") (w :: w2 :: ws))
      with (w ++ String sep (Text.join (String sep "") (w2 :: ws)))%string.
    rewrite split_app_sep by assumption.
    rewrite IH; [reflexivity|discriminate|assumption].
Qed.

Lemma Forall_skipn {A} (P : A -> Prop) (n : nat) (l : list A) :
  Forall P l -> Forall P (skipn n l).
Proof.
  intros H. rewrite <- (firstn_skipn n l) in H.
  now apply Forall_app in H.
Qed.

(** The steps of the loop body, one after the other. *)
Lemma clean_domain_steps chk (domain : string) :
  clean_domain chk domain =
  (netloc <- urlparse_netloc chk (before_urlparse domain) ;;
   Ok (rejoin (Text.split "." netloc))).
Proof. reflexivity. Qed.

(** Domain invariant: a cleaned domain has at most three labels. *)
Lemma rejoin_labels (parts : list string) :
  parts <> [] ->
  Forall (fun p => Text.has_char "." p = false) parts ->
  List.length (Text.split "." (rejoin parts)) <= 3.
Proof.
  intros Hne Hfree. unfold rejoin.
  destruct (2 <? List.length parts) eqn:Hlen.
  - apply Nat.ltb_lt in Hlen.
    assert (Hl3 : List.length (last3 parts) = 3).
    { unfold last3. rewrite length_skipn. lia. }
    rewrite split_join.
    + lia.
    + intros Hnil. rewrite Hnil in Hl3. discriminate.
    + now apply Forall_skipn.
  - apply Nat.ltb_ge in Hlen. rewrite split_join by assumption. lia.
Qed.

Lemma clean_domain_labels chk (domain d : string) :
  clean_domain chk domain = Ok d -> List.length (Text.split "." d) <= 3.
Proof.
  rewrite clean_domain_steps. intros H.
  apply bind_ok_inv in H as (n & _ & H). inversion H; subst d.
  apply rejoin_labels; [apply split_not_nil|apply split_parts_free].
Qed.


Lemma clean_domains_members chk (domains cleaned : list string) :
  clean_domains chk domains = Ok cleaned ->
  forall d,
    In d cleaned <->
    exists raw, In raw domains /\ clean_domain chk raw = Ok d /\
                Text.endswith ".br" d = true.
Proof.
  revert cleaned. induction domains as [|x xs IH]; intros cleaned H d; simpl in H.
  - inversion H; subst. split; [intros []|intros (raw & [] & _)].
  - apply bind_ok_inv in H as (n & Hn & H).
    apply bind_ok_inv in H as (tail & Htail & H).
    inversion H; subst cleaned; clear H. specialize (IH tail Htail d).
    split.
    + intros Hin.
      destruct (Text.endswith ".br" n) eqn:Hbr;
        [destruct Hin as [<-|Hin]; [exists x; simpl; auto|]|];
        apply IH in Hin as (raw & Hraw & Hd & He); exists raw; simpl; auto.
    + intros (raw & [<-|Hraw] & Hd & He).
      * rewrite Hn in Hd. inversion Hd; subst n. rewrite He. now left.
      * assert (Hin : In d tail) by (apply IH; exists raw; auto).
        destruct (Text.endswith ".br" n); [now right|exact Hin].
Qed.

(** *** Characters that the steps keep out *)

Section CharsKept.

Variable p : ascii -> bool.

Lemma all_app (a b : string) :
  Chars.all p (a ++ b) = Chars.all p a && Chars.all p b.
Proof.
  induction a as [|c r IH]; simpl; [reflexivity|].
  now rewrite IH, andb_assoc.
Qed.

Lemma all_drop (n : nat) (s : string) :
  Chars.all p s = true -> Chars.all p (Text.drop n s) = true.
Proof.
  revert s. induction n as [|n IH]; intros s H; [exact H|].
  destruct s as [|c r]; [reflexivity|].
  simpl in *. apply andb_true_iff in H as [_ H]. now apply IH.
Qed.


Lemma all_rstrip_by (q : ascii -> bool) (s : string) :
  Chars.all p s = true -> Chars.all p (Text.rstrip_by q s) = true.
Proof.
  induction s as [|c r IH]; intros H; [reflexivity|].
  simpl in H. apply andb_true_iff in H as [Hc Hr]. specialize (IH Hr).
  simpl. destruct (Text.rstrip_by q r) as [|c' r'].
  - destruct (q c); simpl; [reflexivity|now rewrite Hc].
  - simpl in *. now rewrite Hc, IH.
Qed.

Lemma all_remove_prefix (pre s : string) :
  Chars.all p s = true -> Chars.all p (Text.remove_prefix pre s) = true.
Proof.
  intros H. unfold Text.remove_prefix.
  destruct (Text.startswith pre s); [now apply all_drop|exact H].
Qed.

Lemma all_delete_unsafe (s : string) :
  Chars.all p s = true -> Chars.all p (Text.delete_unsafe s) = true.
Proof.
  induction s as [|c r IH]; intros H; [reflexivity|].
  simpl in *. apply andb_true_iff in H as [Hc Hr].
  destruct (Text.is_unsafe c); [now apply IH|]. simpl. now rewrite Hc, IH.
Qed.

Lemma all_netloc (s : string) :
  Chars.all p s = true -> Chars.all p (Text.netloc s) = true.
Proof.
  induction s as [|c r IH]; intros H; [reflexivity|].
  simpl in *. apply andb_true_iff in H as [Hc Hr].
  destruct (_ || _); [reflexivity|]. simpl. now rewrite Hc, IH.
Qed.

Lemma all_split (sep : ascii) (s : string) :
  Chars.all p s = true ->
  Forall (fun w => Chars.all p w = true) (Text.split sep s).
Proof.
  induction s as [|c r IH]; intros H.
  - constructor; [reflexivity|constructor].
  - simpl in H. apply andb_true_iff in H as [Hc Hr]. specialize (IH Hr).
    simpl. destruct (Ascii.eqb c sep).
    + constructor; [reflexivity|exact IH].
    + destruct (Text.split sep r) as [|w ws].
      * constructor; [simpl; now rewrite Hc|constructor].
      * inversion IH; subst. constructor; [simpl; now rewrite Hc|assumption].
Qed.

Lemma all_join (sep : string) (parts : list string) :
  Chars.all p sep = true ->
  Forall (fun w => Chars.all p w = true) parts ->
  Chars.all p (Text.join sep parts) = true.
Proof.
  intros Hsep. induction parts as [|w ws IH]; intros H; [reflexivity|].
  inversion H as [|? ? Hw Hws]; subst. specialize (IH Hws).
  destruct ws as [|w2 ws]; [exact Hw|].
  change (Text.join sep (w :: w2 :: ws))
    with (w ++ sep ++ Text.join sep (w2 :: ws))%string.
  now rewrite !all_app, Hw, Hsep, IH.
Qed.

(** What the last step of [clean_domain] keeps of the labels. *)
Lemma all_rejoin (parts : list string) :
  p "."%char = true ->
  Forall (fun w => Chars.all p w = true) parts ->
  Chars.all p (rejoin parts) = true.
Proof.
  intros Hdot H. unfold rejoin. destruct (2 <? List.length parts); apply all_join;
    try (simpl; now rewrite Hdot); try assumption.
  now apply Forall_skipn.
Qed.


End CharsKept.











(** ** Identifier sanitisation *)

Lemma only_digits_filter (s : string) :
  list_ascii_of_string (Text.only_digits s) =
  filter Text.is_digit (list_ascii_of_string s).
Proof.
  induction s as [|c r IH]; simpl; [reflexivity|].
  destruct (Text.is_digit c); simpl; now rewrite IH.
Qed.

Lemma only_digits_all_digits (s : string) :
  forallb Text.is_digit (list_ascii_of_string (Text.only_digits s)) = true.
Proof.
  rewrite only_digits_filter. apply forallb_forall.
  intros c Hc. now apply filter_In in Hc.
Qed.

(** ** The extractor *)

Lemma last_cons {A} (l : list A) (a d : A) : last (a :: l) d = last l a.
Proof.
  revert a d; induction l as [|b l IH]; intros a d; [reflexivity|].
  change (last (a :: b :: l) d) with (last (b :: l) d).
  now rewrite (IH b d), (IH b a).
Qed.

Lemma last_app_default {A} (l1 l2 : list A) (d : A) :
  last (l1 ++ l2) d = last l2 (last l1 d).
Proof.
  revert d; induction l1 as [|a l1 IH]; intros d; [reflexivity|].
  now rewrite <- app_comm_cons, !last_cons, IH.
Qed.

(** The test of line 57, when it returns, is the test "typed cpf or cnpj". *)
Lemma typed_cpf_cnpj_is_tax_id (public_id : json) (hit : bool) :
  typed_cpf_cnpj public_id = Ok hit -> Scan.is_tax_id public_id = hit.
Proof.
  unfold typed_cpf_cnpj. destruct public_id as [| | | |xs|kvs]; simpl; try discriminate.
  destruct (Py.lookup "type" kvs) as [ty|]; simpl; [|discriminate].
  intros H. inversion H; subst hit. now destruct ty.
Qed.

(** The loop over [publicIds] leaves the identifier of the last entry typed
    cpf/cnpj, or what was there before when there is none. *)
Lemma scan_public_ids_last (pids : list json) :
  forall c c',
    Py.for_each pids scan_public_id c = Ok c' ->
    c' = last (map Scan.identifier (filter Scan.is_tax_id pids)) c.
Proof.
  induction pids as [|p pids IH]; intros c c' H; simpl in H.
  - now inversion H.
  - bind_inv H. unfold scan_public_id in E. bind_inv E.
    simpl filter. rewrite (typed_cpf_cnpj_is_tax_id p v0 E0).
    destruct v0.
    + simpl map. rewrite last_cons. unfold Scan.identifier at 2.
      rewrite E. simpl. now apply IH.
    + inversion E; subst. now apply IH.
Qed.

(** The same loop on entries that have both keys: it returns. *)
Lemma scan_listed_ids (ids : list (string * string)) :
  forall c,
    Py.for_each (map (fun p => Sample.public_id (fst p) (snd p)) ids) scan_public_id c =
    Ok (last (Sample.listed_tax_ids ids) c).
Proof.
  induction ids as [|[ty ident] ids IH]; intros c; [reflexivity|].
  unfold Sample.listed_tax_ids in *. cbn [map filter fst snd Py.for_each].
  unfold scan_public_id at 1, typed_cpf_cnpj, Sample.public_id at 1 2. cbn.
  destruct (_ || _); cbn [bind]; rewrite IH; [|reflexivity].
  cbn [map snd]. now rewrite last_cons.
Qed.

(** The loop over one card stops at its first e-mail row. *)
Lemma scan_card_first (rows : list json) :
  forall e e', scan_card rows e = Ok e' -> e' = last (Scan.card_email rows) e.
Proof.
  induction rows as [|item rows IH]; intros e e' H; simpl in H.
  - now inversion H.
  - bind_inv H. unfold Scan.card_email. simpl find.
    unfold Scan.is_email_row at 1. rewrite E. simpl.
    destruct (Py.eq_str v "email").
    + rewrite H. reflexivity.
    + now apply IH.
Qed.

(** The loop over the sub-entities: a later card with an e-mail row
    overwrites what an earlier one set. *)
Lemma scan_sub_entities_last (subs : list json) :
  forall e e',
    Py.for_each subs scan_sub_entity e = Ok e' ->
    e' = last (flat_map (fun sub => Scan.card_email (Scan.card_rows sub)) subs) e.
Proof.
  induction subs as [|sub subs IH]; intros e e' H; simpl in H.
  - now inversion H.
  - bind_inv H. unfold scan_sub_entity in E. bind_inv E. bind_inv E.
    simpl flat_map. rewrite last_app_default.
    apply IH. replace (last _ e) with v; [assumption|].
    unfold vcard_of in E0. bind_inv E0.
    unfold Scan.card_rows. rewrite E2. simpl. rewrite E0. simpl. rewrite E1. simpl.
    now apply scan_card_first.
Qed.

Lemma scan_entity_spec (entity : json) (st st' : key_info) :
  scan_entity entity st = Ok st' ->
  cpf_cnpj st' = last (Scan.entity_tax_ids entity) (cpf_cnpj st) /\
  email_rdap st' = last (Scan.entity_emails entity) (email_rdap st).
Proof.
  unfold scan_entity. intros H.
  apply bind_ok_inv in H as (roles & Hroles & H).
  apply bind_ok_inv in H as (reg & Hreg & H).
  apply bind_ok_inv in H as (st1 & Hst1 & H).
  apply bind_ok_inv in H as (subs & Hsubs & H).
  apply bind_ok_inv in H as (subl & Hsubl & H).
  apply bind_ok_inv in H as (email & Hemail & H).
  inversion H; subst; clear H. simpl.
  unfold Scan.entity_tax_ids, Scan.entity_emails, Scan.is_registrant, Scan.sub_entities,
    Scan.public_ids.
  rewrite Hroles, Hsubs. simpl. rewrite Hreg, Hsubl. simpl.
  apply scan_sub_entities_last in Hemail.
  destruct reg.
  - apply bind_ok_inv in Hst1 as (vcard & Hvcard & Hst1).
    apply bind_ok_inv in Hst1 as (nm & Hnm & Hst1).
    apply bind_ok_inv in Hst1 as (pids & Hpids & Hst1).
    apply bind_ok_inv in Hst1 as (pidl & Hpidl & Hst1).
    apply bind_ok_inv in Hst1 as (cpf & Hcpf & Hst1).
    inversion Hst1; subst; clear Hst1. simpl in *.
    rewrite Hpids. simpl. rewrite Hpidl. simpl.
    apply scan_public_ids_last in Hcpf. auto.
  - inversion Hst1; subst. auto.
Qed.

Lemma scan_entities_spec (entities : list json) :
  forall st st',
    Py.for_each entities scan_entity st = Ok st' ->
    cpf_cnpj st' = last (flat_map Scan.entity_tax_ids entities) (cpf_cnpj st) /\
    email_rdap st' = last (flat_map Scan.entity_emails entities) (email_rdap st).
Proof.
  induction entities as [|entity entities IH]; intros st st' H; simpl in H.
  - inversion H; auto.
  - bind_inv H. apply scan_entity_spec in E as [Ec Ee].
    apply IH in H as [Hc He].
    simpl flat_map. rewrite !last_app_default, <- Ec, <- Ee. auto.
Qed.

Lemma extract_key_info_scans (rdap_info : json) (info : key_info) :
  Py.str_in "error" rdap_info = Ok false ->
  extract_key_info rdap_info = Ok info ->
  cpf_cnpj info = or_not_available (last (Scan.tax_ids rdap_info) JNull) /\
  email_rdap info = or_not_available (last (Scan.emails rdap_info) JNull).
Proof.
  unfold extract_key_info. intros Herr H. rewrite Herr in H. simpl in H.
  bind_inv H. bind_inv H. bind_inv H. inversion H; subst; clear H. simpl.
  apply scan_entities_spec in E1 as [Hc He]. simpl in Hc, He.
  unfold Scan.tax_ids, Scan.emails, Scan.entities.
  rewrite E. simpl. rewrite E0. simpl.
  rewrite Hc, He. auto.
Qed.

Lemma truthy_or_not_available (v : json) :
  Py.truthy v = true -> or_not_available v = v.
Proof. unfold or_not_available. now intros ->. Qed.

Lemma last_snoc {A} (l : list A) (a d : A) : last (l ++ [a]) d = a.
Proof. now rewrite last_app_default. Qed.

(** C6, as the source has it.  Tax-identifier tie-break: on a record
    that is not error-tagged and on which extraction returns, the
    identifier of the last entry typed "cpf" or "cnpj" met while scanning
    the public identifiers of the registrant entities in order is the one
    extracted when it is not null or empty; when it is, or when there is
    no such entry, the field is "Not available".  On a registrant whose
    entries all have a type and an identifier, extraction returns. *)
Theorem tax_identifier_last_match_wins :
  (forall rdap_info info,
      Py.str_in "error" rdap_info = Ok false ->
      extract_key_info rdap_info = Ok info ->
      cpf_cnpj info = or_not_available (last (Scan.tax_ids rdap_info) JNull) /\
      (forall earlier id,
          Scan.tax_ids rdap_info = earlier ++ [id] ->
          Py.truthy id = true ->
          cpf_cnpj info = id) /\
      (forall earlier id,
          Scan.tax_ids rdap_info = earlier ++ [id] ->
          Py.truthy id = false ->
          cpf_cnpj info = NOT_AVAILABLE) /\
      (Scan.tax_ids rdap_info = [] -> cpf_cnpj info = NOT_AVAILABLE)) /\
  (forall ids,
      extract_key_info (Sample.identified ids) =
      Ok (KeyInfo NOT_AVAILABLE
                  (or_not_available (last (Sample.listed_tax_ids ids) JNull))
                  (JStr "Fulano"))).
Proof.
  split.
  - intros rdap_info info Herr H.
    destruct (extract_key_info_scans rdap_info info Herr H) as [Hc _].
    split; [exact Hc|]. split; [|split].
    + intros earlier id Hids Hid.
      now rewrite Hc, Hids, last_snoc, truthy_or_not_available.
    + intros earlier id Hids Hid.
      rewrite Hc, Hids, last_snoc. unfold or_not_available. now rewrite Hid.
    + intros Hids. now rewrite Hc, Hids.
  - intros ids. unfold extract_key_info, Sample.identified. cbn.
    rewrite scan_listed_ids. reflexivity.
Qed.

Lemma tax_identifier_last_match_wins_witness :
  exists info,
    extract_key_info Sample.two_identifiers = Ok info /\
    cpf_cnpj info = JStr "123.456.789-09".
Proof.
  eexists. split; [reflexivity|].
  apply (proj1 (proj2 (proj1 tax_identifier_last_match_wins Sample.two_identifiers _
                         eq_refl eq_refl))
               [JStr "12.345.678/0001-99"] (JStr "123.456.789-09"));
    reflexivity.
Defined.

(** C6 as stated fails: when the last entry typed cpf or cnpj has an
    empty identifier, the extracted value is not that identifier. *)
Lemma tax_identifier_counterexample :
  exists info,
    extract_key_info Sample.empty_last_identifier = Ok info /\
    Scan.tax_ids Sample.empty_last_identifier =
      [JStr "12.345.678/0001-99"; JStr ""] /\
    cpf_cnpj info = JStr "Not available" /\
    cpf_cnpj info <> last (Scan.tax_ids Sample.empty_last_identifier) JNull.
Proof.
  eexists. split; [reflexivity|].
  split; [reflexivity|]. split; [reflexivity|]. discriminate.
Qed.




(** C8. Extraction sentinels: an error-tagged record yields "Error" in all
    three fields; a record that is not error-tagged and has no entities
    yields "Not available" in all three. *)
Theorem extraction_sentinels (rdap_info : json) :
  (Py.str_in "error" rdap_info = Ok true ->
   extract_key_info rdap_info = Ok (KeyInfo ERROR ERROR ERROR)) /\
  (Py.str_in "error" rdap_info = Ok false ->
   Py.get rdap_info "entities" (JList []) = Ok (JList []) ->
   extract_key_info rdap_info =
     Ok (KeyInfo NOT_AVAILABLE NOT_AVAILABLE NOT_AVAILABLE) /\
   extract_key_info rdap_info <> Ok (KeyInfo ERROR ERROR ERROR)).
Proof.
  unfold extract_key_info. split.
  - now intros ->.
  - intros -> ->. simpl. split; [reflexivity|discriminate].
Qed.

Lemma extraction_sentinels_witness :
  extract_key_info (JDict [("error", JStr "404 Client Error")]) =
    Ok (KeyInfo (JStr "Error") (JStr "Error") (JStr "Error")) /\
  extract_key_info (JDict [("handle", JStr "example.com.br"); ("entities", JList [])]) =
    Ok (KeyInfo (JStr "Not available") (JStr "Not available") (JStr "Not available")).
Proof.
  split.
  - apply (proj1 (extraction_sentinels (JDict [("error", JStr "404 Client Error")])));
      reflexivity.
  - apply (proj2 (extraction_sentinels
                    (JDict [("handle", JStr "example.com.br"); ("entities", JList [])])));
      reflexivity.
Defined.

(** C10. The extractor is partial: there are records that are not
    error-tagged on which it raises instead of returning defaults. *)
Theorem extraction_not_total :
  (succeeded Sample.registrant_without_card = true /\
   extract_key_info Sample.registrant_without_card = Raise IndexError) /\
  (succeeded Sample.sub_entity_without_card = true /\
   extract_key_info Sample.sub_entity_without_card = Raise IndexError) /\
  (succeeded Sample.public_id_without_type = true /\
   extract_key_info Sample.public_id_without_type = Raise KeyError) /\
  (succeeded Sample.empty_card_row = true /\
   extract_key_info Sample.empty_card_row = Raise IndexError) /\
  ~ (forall rdap_info,
        succeeded rdap_info = true ->
        exists info, extract_key_info rdap_info = Ok info).
Proof.
  repeat split; try reflexivity.
  intros H. destruct (H Sample.registrant_without_card eq_refl) as [info Hinfo].
  discriminate Hinfo.
Qed.

(** ** Procedures: rules for relations kept along a run *)

Section KeepsRules.

Variable R : World -> World -> Prop.
Hypothesis R_refl : forall w, R w w.
Hypothesis R_trans : forall a b c, R a b -> R b c -> R a c.

Lemma keeps_ret {A} (a : A) : keeps R (ret a).
Proof. intros w. apply R_refl. Qed.

Lemma keeps_throw {A} (e : pyexn) : keeps R (@throw A e).
Proof. intros w. apply R_refl. Qed.

Lemma keeps_lift {A} (r : result A) : keeps R (lift r).
Proof. intros w. apply R_refl. Qed.

Lemma keeps_time_time : keeps R time_time.
Proof. intros w. apply R_refl. Qed.

Lemma keeps_read_csv : keeps R read_csv.
Proof. intros w. apply R_refl. Qed.

Lemma keeps_contador : keeps R contador.
Proof. intros w. apply R_refl. Qed.

Lemma keeps_seq {A B} (c : proc A) (k : A -> proc B) :
  keeps R c -> (forall a, keeps R (k a)) -> keeps R (seq c k).
Proof.
  intros Hc Hk w. unfold seq. specialize (Hc w).
  destruct (c w) as [[a|e] w1]; simpl in *.
  - eapply R_trans; [exact Hc|apply Hk].
  - exact Hc.
Qed.

Lemma keeps_for_in {X} (xs : list X) (body : X -> proc unit) :
  (forall x, keeps R (body x)) -> keeps R (for_in xs body).
Proof.
  intros Hb. induction xs as [|x xs IH]; simpl.
  - apply keeps_ret.
  - apply keeps_seq; auto.
Qed.

End KeepsRules.

(** Breaks a goal [keeps R c] along the structure of [c]; [prim] closes the
    leaves. *)
Ltac keeps_walk refl trans prim :=
  repeat first
    [ progress intros
    | solve [prim]
    | apply (keeps_seq _ trans)
    | apply (keeps_ret _ refl)
    | apply (keeps_lift _ refl)
    | apply (keeps_time_time _ refl)
    | apply (keeps_read_csv _ refl)
    | apply (keeps_contador _ refl)
    | apply (keeps_for_in _ refl trans)
    | match goal with
      | |- keeps _ (if ?b then _ else _) => destruct b
      | |- keeps _ (match ?x with _ => _ end) => destruct x
      end ].

(** ** The table only grows *)

Lemma domain_in_true (dominio : string) (domains : list string) :
  domain_in dominio domains = true <-> In dominio domains.
Proof.
  unfold domain_in. rewrite existsb_exists. split.
  - intros [x [Hin Heq]]. apply String.eqb_eq in Heq. now subst.
  - intros Hin. exists dominio. split; [assumption|apply String.eqb_refl].
Qed.

Lemma domain_in_false (dominio : string) (domains : list string) :
  domain_in dominio domains = false <-> ~ In dominio domains.
Proof.
  rewrite <- domain_in_true. destruct (domain_in dominio domains); split;
    congruence.
Qed.

Lemma grows_refl (w : World) : grows w w.
Proof.
  exists []. rewrite app_nil_r. repeat split; [constructor|intros d []].
Qed.

Lemma grows_trans (a b c : World) : grows a b -> grows b c -> grows a c.
Proof.
  intros (add1 & Ht1 & Hn1 & Hf1) (add2 & Ht2 & Hn2 & Hf2).
  assert (Hb : domains_of b = domains_of a ++ map Domain add1).
  { unfold domains_of. now rewrite Ht1, map_app. }
  exists (add1 ++ add2). split; [|split].
  - now rewrite Ht2, Ht1, app_assoc.
  - rewrite map_app. apply NoDup_app; try assumption.
    intros d Hd1 Hd2. apply (Hf2 d Hd2). rewrite Hb. apply in_or_app. now right.
  - intros d Hd. rewrite map_app in Hd. apply in_app_or in Hd as [Hd|Hd].
    + now apply Hf1.
    + intros Hin. apply (Hf2 d Hd). rewrite Hb. apply in_or_app. now left.
Qed.

Lemma grows_same_file (w w' : World) : csv_file w' = csv_file w -> grows w w'.
Proof.
  intros H. exists []. unfold table. rewrite H, app_nil_r.
  repeat split; [constructor|intros d []].
Qed.

Lemma new_row_domain (dominio : string) (rdap_info : key_info) (cnpj_info : json) (r : row) :
  new_row dominio rdap_info cnpj_info = Ok r -> Domain r = dominio.
Proof.
  unfold new_row. intros H.
  repeat (apply bind_ok_inv in H as (? & _ & H)).
  now inversion H.
Qed.

(** What a call of [save_to_csv] comes to, case by case. *)
Lemma save_to_csv_run (dominio : string) (rdap_info : key_info) (cnpj_info : json)
      (w : World) :
  save_to_csv dominio rdap_info cnpj_info w =
  if domain_in dominio (domains_of w) then
    (Ok false,
     MkWorld (csv_file w) (CONTADOR_SUCESSO w) (clock w)
             (journal w ++ [Log INFO (AlreadyInTable dominio)]))
  else
    match new_row dominio rdap_info cnpj_info with
    | Ok r =>
        (Ok true,
         MkWorld (Some (table w ++ [r])) (CONTADOR_SUCESSO w + 1) (clock w)
                 ((journal w ++ [WriteCsv (table w ++ [r])])
                    ++ [Log INFO (RowSaved dominio)]))
    | Raise e => (Raise e, w)
    end.
Proof.
  unfold save_to_csv, seq, read_csv, domains_of, table. simpl.
  destruct (domain_in dominio _); [reflexivity|].
  unfold lift. destruct (new_row dominio rdap_info cnpj_info); reflexivity.
Qed.

Lemma grows_save_to_csv (dominio : string) (rdap_info : key_info) (cnpj_info : json) :
  keeps grows (save_to_csv dominio rdap_info cnpj_info).
Proof.
  intros w. rewrite save_to_csv_run.
  destruct (domain_in dominio (domains_of w)) eqn:Hin.
  - now apply grows_same_file.
  - destruct (new_row dominio rdap_info cnpj_info) as [r|e] eqn:Hrow;
      [|apply grows_refl].
    apply new_row_domain in Hrow. apply domain_in_false in Hin.
    exists [r]. simpl. rewrite Hrow. repeat split.
    + constructor; [intros []|constructor].
    + intros d [<-|[]]. exact Hin.
Qed.

Lemma grows_emit (e : event) : keeps grows (emit e).
Proof. intros w. now apply grows_same_file. Qed.

Lemma grows_logging (lvl : level) (msg : message) : keeps grows (logging lvl msg).
Proof. apply grows_emit. Qed.

Lemma grows_time_sleep (seconds : Q) : keeps grows (time_sleep seconds).
Proof. intros w. now apply grows_same_file. Qed.

Lemma grows_requests_get service (url : string) : keeps grows (requests_get service url).
Proof. intros w. now apply grows_same_file. Qed.

Create HintDb grows_db.
#[local] Hint Resolve grows_save_to_csv grows_emit grows_logging grows_time_sleep
  grows_requests_get : grows_db.

Ltac grows_walk := keeps_walk grows_refl grows_trans ltac:(auto with grows_db).

Lemma grows_enrich service (dominio : string) : keeps grows (enrich service dominio).
Proof.
  unfold enrich, consulta_rdap, after_rdap, lookup_company, consulta_cnpj, store.
  grows_walk.
Qed.

Lemma grows_pace (inicio : Q) : keeps grows (pace inicio).
Proof. unfold pace. grows_walk. Qed.

Lemma grows_iteration service (existentes : list string) (dominio : string) :
  keeps grows (iteration service existentes dominio).
Proof.
  unfold iteration.
  keeps_walk grows_refl grows_trans
    ltac:(auto using grows_enrich, grows_pace with grows_db).
Qed.

Lemma grows_main chk service (input_file : option (list (list string))) :
  keeps grows (main chk service input_file).
Proof.
  unfold main.
  keeps_walk grows_refl grows_trans
    ltac:(auto using grows_iteration with grows_db).
Qed.

Lemma iteration_skipped service (existentes : list string) (dominio : string) (w : World) :
  In dominio existentes ->
  iteration service existentes dominio w =
  (Ok tt, MkWorld (csv_file w) (CONTADOR_SUCESSO w) (clock w)
                  (journal w ++ [Log INFO (AlreadyInTable dominio)])).
Proof.
  intros Hin. apply domain_in_true in Hin. unfold iteration. now rewrite Hin.
Qed.

(** A run over domains that are all in the table at the start: one log
    line each, nothing else. *)
Lemma for_in_all_skipped service (existentes : list string) (dominios : list string) :
  (forall d, In d dominios -> In d existentes) ->
  forall w,
    for_in dominios (iteration service existentes) w =
    (Ok tt, MkWorld (csv_file w) (CONTADOR_SUCESSO w) (clock w)
                    (journal w ++ map (fun d => Log INFO (AlreadyInTable d)) dominios)).
Proof.
  induction dominios as [|d ds IH]; intros Hall w.
  - simpl. rewrite app_nil_r. now destruct w.
  - simpl for_in. unfold seq.
    rewrite iteration_skipped by (apply Hall; now left).
    rewrite IH by (intros d' Hd'; apply Hall; now right).
    simpl. now rewrite <- app_assoc.
Qed.

Lemma grows_NoDup (w w' : World) :
  grows w w' -> NoDup (domains_of w) -> NoDup (domains_of w').
Proof.
  intros (added & Ht & Hn & Hf) Hw. unfold domains_of in *.
  rewrite Ht, map_app. apply NoDup_app; try assumption.
  intros d Hd Hadd. now apply (Hf d Hadd).
Qed.

(** C1. Idempotent resumption: appending a domain that is in the table is
    a no-op that returns false; a run only appends rows whose domains are
    new, so the Domain keys stay distinct; and a run over domains that are
    all in the table leaves the table as it is, whatever the services
    would answer.  A run on which the cleaner raises ends there, with
    nothing read, written or logged. *)
Theorem idempotent_resumption chk service :
  (forall dominio rdap_info cnpj_info w,
      In dominio (domains_of w) ->
      save_to_csv dominio rdap_info cnpj_info w =
      (Ok false, MkWorld (csv_file w) (CONTADOR_SUCESSO w) (clock w)
                         (journal w ++ [Log INFO (AlreadyInTable dominio)]))) /\
  (forall input_file w,
      let w' := snd (main chk service input_file w) in
      (exists added,
          table w' = table w ++ added /\
          NoDup (map Domain added) /\
          (forall d, In d (map Domain added) -> ~ In d (domains_of w))) /\
      (NoDup (domains_of w) -> NoDup (domains_of w'))) /\
  (forall input_file domains cleaned w,
      read_domains input_file = Some domains ->
      clean_domains chk domains = Ok cleaned ->
      (forall d, In d cleaned -> In d (domains_of w)) ->
      main chk service input_file w =
      (Ok tt, MkWorld (csv_file w) (CONTADOR_SUCESSO w) (clock w)
                (journal w ++
                 map (fun d => Log INFO (AlreadyInTable d)) cleaned))) /\
  (forall service2 input_file w t,
      NoDup (domains_of w) ->
      let w1 := snd (main chk service input_file w) in
      let w2 := snd (main chk service2 input_file (boot (csv_file w1) t)) in
      NoDup (domains_of w2) /\
      exists added,
        table w2 = table w1 ++ added /\
        (forall d, In d (domains_of w1) -> ~ In d (map Domain added))) /\
  (forall input_file domains e w,
      read_domains input_file = Some domains ->
      clean_domains chk domains = Raise e ->
      main chk service input_file w = (Raise e, w)).
Proof.
  split; [|split; [|split; [|split]]].
  - intros dominio rdap_info cnpj_info w Hin.
    rewrite save_to_csv_run. apply domain_in_true in Hin. now rewrite Hin.
  - intros input_file w w'. pose proof (grows_main chk service input_file w) as Hg.
    split; [exact Hg|]. now apply grows_NoDup.
  - intros input_file domains cleaned w Hread Hclean Hall. unfold main.
    rewrite Hread, Hclean. unfold seq, read_csv. simpl.
    now apply for_in_all_skipped.
  - intros service2 input_file w t Hw w1 w2.
    pose proof (grows_main chk service input_file w) as Hg1.
    pose proof (grows_main chk service2 input_file (boot (csv_file w1) t)) as Hg2.
    fold w1 in Hg1. fold w2 in Hg2.
    assert (Hn1 : NoDup (domains_of w1)) by now apply (grows_NoDup w).
    assert (Hsame : domains_of (boot (csv_file w1) t) = domains_of w1) by reflexivity.
    split.
    + apply (grows_NoDup _ _ Hg2). now rewrite Hsame.
    + destruct Hg2 as (added & Ht & _ & Hf). exists added. split; [exact Ht|].
      intros d Hd Hadd. apply (Hf d Hadd). now rewrite Hsame.
  - intros input_file domains e w Hread Hclean. unfold main.
    now rewrite Hread, Hclean.
Qed.

Lemma idempotent_resumption_witness :
  let w := boot (Some [Sample.stored "a.com.br"]) 0 in
  fst (save_to_csv "a.com.br" (KeyInfo JNull JNull JNull) (JDict []) w) = Ok false /\
  csv_file (snd (main Urllib.any_brackets Sample.healthy (Some [["domain"]; ["http://www.A.com.br/"]]) w)) =
    Some [Sample.stored "a.com.br"].
Proof.
  split.
  - rewrite (proj1 (idempotent_resumption Urllib.any_brackets Sample.healthy) "a.com.br"
               (KeyInfo JNull JNull JNull) (JDict [])
               (boot (Some [Sample.stored "a.com.br"]) 0));
      [reflexivity | simpl; auto].
  - rewrite (proj1 (proj2 (proj2 (idempotent_resumption Urllib.any_brackets
                                      Sample.healthy)))
               (Some [["domain"]; ["http://www.A.com.br/"]])
               ["http://www.A.com.br/"] ["a.com.br"]
               (boot (Some [Sample.stored "a.com.br"]) 0) eq_refl eq_refl);
      [reflexivity | simpl; intros d [<-|[]]; auto].
Defined.

(** A domain listed twice: the second turn finds the row the first one
    appended, and the append is refused. *)
Example duplicate_in_one_run :
  let w := snd (main Urllib.any_brackets Sample.healthy (Some [["domain"]; ["a.com.br"]; ["A.com.br"]])
                     (boot None 0)) in
  domains_of w = ["a.com.br"] /\
  CONTADOR_SUCESSO w = 1%Z /\
  In (Log INFO (InfoNotSaved "a.com.br")) (journal w).
Proof.
  vm_compute. split; [reflexivity|]. split; [reflexivity|].
  repeat match goal with |- _ \/ _ => first [left; reflexivity | right] end.
Qed.

(** ** The journal, the counter and the clock move together *)

Lemma writes_app (a b : list event) : writes (a ++ b) = (writes a + writes b)%Z.
Proof. unfold writes. rewrite filter_app, length_app. lia. Qed.

Lemma duration_app (a b : list event) :
  (duration (a ++ b) == duration a + duration b)%Q.
Proof.
  induction a as [|e a IH]; simpl.
  - ring.
  - rewrite IH. ring.
Qed.

Lemma advances_refl (w : World) : advances w w.
Proof.
  exists []. rewrite app_nil_r. simpl. repeat split; [unfold writes; simpl; lia|ring].
Qed.

Lemma advances_trans (a b c : World) : advances a b -> advances b c -> advances a c.
Proof.
  intros (n1 & Hj1 & Hc1 & Ht1) (n2 & Hj2 & Hc2 & Ht2).
  exists (n1 ++ n2). repeat split.
  - now rewrite Hj2, Hj1, app_assoc.
  - rewrite writes_app. lia.
  - rewrite duration_app, Ht2, Ht1. ring.
Qed.

Lemma advances_logging (lvl : level) (msg : message) : keeps advances (logging lvl msg).
Proof.
  intros w. exists [Log lvl msg]. simpl. repeat split; [unfold writes; simpl; lia|ring].
Qed.

Lemma advances_time_sleep (seconds : Q) : keeps advances (time_sleep seconds).
Proof.
  intros w. exists [Sleep seconds]. simpl.
  repeat split; [unfold writes; simpl; lia|ring].
Qed.

Lemma advances_requests_get service (url : string) :
  keeps advances (requests_get service url).
Proof.
  intros w. exists [Request url (latency (service w url))]. simpl.
  repeat split; [unfold writes; simpl; lia|ring].
Qed.

Lemma advances_save_to_csv (dominio : string) (rdap_info : key_info) (cnpj_info : json) :
  keeps advances (save_to_csv dominio rdap_info cnpj_info).
Proof.
  intros w. rewrite save_to_csv_run.
  destruct (domain_in dominio (domains_of w)).
  - apply advances_logging.
  - destruct (new_row dominio rdap_info cnpj_info) as [r|e]; [|apply advances_refl].
    exists [WriteCsv (table w ++ [r]); Log INFO (RowSaved dominio)]. simpl.
    repeat split; [now rewrite <- app_assoc|ring].
Qed.

Create HintDb advances_db.
#[local] Hint Resolve advances_logging advances_time_sleep advances_requests_get
  advances_save_to_csv : advances_db.

Ltac advances_walk extra :=
  keeps_walk advances_refl advances_trans ltac:(auto using extra with advances_db).

Lemma advances_store (dominio : string) (info : key_info) (receita_info : json) :
  keeps advances (store dominio info receita_info).
Proof. unfold store. advances_walk advances_refl. Qed.

Lemma advances_consulta_cnpj service (cnpj : string) :
  keeps advances (consulta_cnpj service cnpj).
Proof. unfold consulta_cnpj. advances_walk advances_refl. Qed.

Lemma advances_consulta_rdap service (dominio : string) :
  keeps advances (consulta_rdap service dominio).
Proof. unfold consulta_rdap. advances_walk advances_refl. Qed.

Lemma advances_lookup_company service (dominio : string) (info : key_info) :
  keeps advances (lookup_company service dominio info).
Proof.
  unfold lookup_company.
  keeps_walk advances_refl advances_trans
    ltac:(auto using advances_store, advances_consulta_cnpj with advances_db).
Qed.

Lemma advances_after_rdap service (dominio : string) (rdap_resultado : json) :
  keeps advances (after_rdap service dominio rdap_resultado).
Proof.
  unfold after_rdap.
  keeps_walk advances_refl advances_trans
    ltac:(auto using advances_lookup_company with advances_db).
Qed.

Lemma advances_enrich service (dominio : string) :
  keeps advances (enrich service dominio).
Proof.
  unfold enrich.
  keeps_walk advances_refl advances_trans
    ltac:(auto using advances_consulta_rdap, advances_after_rdap with advances_db).
Qed.

Lemma advances_pace (inicio : Q) : keeps advances (pace inicio).
Proof. unfold pace. advances_walk advances_refl. Qed.

Lemma advances_iteration service (existentes : list string) (dominio : string) :
  keeps advances (iteration service existentes dominio).
Proof.
  unfold iteration.
  keeps_walk advances_refl advances_trans
    ltac:(auto using advances_enrich, advances_pace with advances_db).
Qed.

Lemma advances_main chk service (input_file : option (list (list string))) :
  keeps advances (main chk service input_file).
Proof.
  unfold main.
  keeps_walk advances_refl advances_trans
    ltac:(auto using advances_iteration with advances_db).
Qed.

(** ** One turn of the loop, event by event *)

Lemma consulta_rdap_returns service (dominio : string) (w : World) :
  exists doc, fst (consulta_rdap service dominio w) = Ok doc.
Proof.
  unfold consulta_rdap, seq, requests_get.
  destruct (answer (service w (RDAP_URL ++ dominio)%string)); simpl; eauto.
Qed.

(** The fixed delay after the RDAP call is part of what [enrich] does,
    whatever the call returned. *)
Lemma enrich_sleeps service (dominio : string) (w : World) :
  exists before after,
    journal (snd (enrich service dominio w)) =
    journal w ++ before ++ Sleep 10 :: after.
Proof.
  unfold enrich. unfold seq at 1.
  destruct (consulta_rdap_returns service dominio w) as [doc Hdoc].
  destruct (advances_consulta_rdap service dominio w) as (before & Hb & _).
  destruct (consulta_rdap service dominio w) as [r wa]. simpl in *. subst r.
  unfold seq at 1. simpl.
  match goal with
  | |- context [after_rdap service dominio doc ?wb] =>
      destruct (advances_after_rdap service dominio doc wb) as (after & Ha & _)
  end.
  exists before, after. rewrite Ha. simpl. rewrite Hb.
  now rewrite <- !app_assoc.
Qed.

Lemma pace_run (inicio : Q) (w1 : World) :
  exists w',
    pace inicio w1 = (Ok tt, w') /\
    journal w' =
      journal w1 ++
      Sleep (Qmax 0 (inject_Z ATRASO_BASE - (clock w1 - inicio)))
      :: pause_events (CONTADOR_SUCESSO w1) /\
    CONTADOR_SUCESSO w' = CONTADOR_SUCESSO w1 /\
    csv_file w' = csv_file w1.
Proof.
  unfold pace, seq, time_time, time_sleep, contador, pause_events. simpl.
  destruct (pause_due (CONTADOR_SUCESSO w1)); simpl; eexists;
    (split; [reflexivity|]); simpl; rewrite <- ?app_assoc; auto.
Qed.

(** A turn that is not skipped and does not raise: the events of [enrich],
    then the floor sleep, then the extended pause when it is due. *)
Lemma iteration_shape service (existentes : list string) (dominio : string)
      (w w' : World) :
  domain_in dominio existentes = false ->
  iteration service existentes dominio w = (Ok tt, w') ->
  exists w1 work,
    enrich service dominio (snd (logging INFO (Processing dominio) w)) = (Ok tt, w1) /\
    journal w1 = journal w ++ Log INFO (Processing dominio) :: work /\
    In (Sleep 10) work /\
    (clock w1 - clock w == duration work)%Q /\
    CONTADOR_SUCESSO w1 = (CONTADOR_SUCESSO w + writes work)%Z /\
    journal w' =
      journal w1 ++
      Sleep (Qmax 0 (inject_Z ATRASO_BASE - (clock w1 - clock w)))
      :: pause_events (CONTADOR_SUCESSO w1) /\
    CONTADOR_SUCESSO w' = CONTADOR_SUCESSO w1.
Proof.
  intros Hin H. unfold iteration in H. rewrite Hin in H.
  unfold seq at 1 in H. unfold time_time at 1 in H.
  unfold seq at 1 in H.
  set (w0 := snd (logging INFO (Processing dominio) w)).
  change (logging INFO (Processing dominio) w) with (Ok tt, w0) in H.
  unfold seq at 1 in H.
  pose proof (advances_enrich service dominio w0) as (work & Hj & Hc & Ht).
  pose proof (enrich_sleeps service dominio w0) as (before & after & Hs).
  destruct (enrich service dominio w0) as [[[]|e] w1]; [|discriminate].
  simpl in Hj, Hc, Ht, Hs.
  destruct (pace_run (clock w) w1) as (w'' & Hp & Hpj & Hpc & _).
  rewrite Hp in H. inversion H; subst w''. clear H.
  exists w1, work. repeat split; try assumption.
  - rewrite Hj. simpl. now rewrite <- app_assoc.
  - rewrite Hj in Hs. apply app_inv_head in Hs. rewrite Hs.
    apply in_or_app. right. now left.
  - rewrite Ht. simpl. ring.
Qed.

(** C3. Pacing floor: at the end of every turn that processed a domain,
    the sleep lasts max(0, 60 - elapsed), elapsed being the time since the
    turn began, the ten-second delay after the call included; so the turn
    lasts at least 60 seconds, exactly 60 when the work took less, and
    nothing is added when the work took 60 seconds or more. *)
Theorem pacing_floor service (existentes : list string) (dominio : string)
        (w w' : World) :
  domain_in dominio existentes = false ->
  iteration service existentes dominio w = (Ok tt, w') ->
  exists w1 work tail,
    let elapsed := (clock w1 - clock w)%Q in
    let tempo_espera := Qmax 0 (60 - elapsed)%Q in
    enrich service dominio (snd (logging INFO (Processing dominio) w)) = (Ok tt, w1) /\
    journal w1 = journal w ++ Log INFO (Processing dominio) :: work /\
    In (Sleep 10) work /\
    (elapsed == duration work)%Q /\
    journal w' = journal w1 ++ Sleep tempo_espera :: tail /\
    tail = pause_events (CONTADOR_SUCESSO w1) /\
    (60 <= elapsed + tempo_espera)%Q /\
    (elapsed <= 60 -> elapsed + tempo_espera == 60)%Q /\
    (60 <= elapsed -> tempo_espera == 0)%Q.
Proof.
  intros Hin H.
  destruct (iteration_shape service existentes dominio w w' Hin H)
    as (w1 & work & He & Hj & Hs & Ht & _ & Hj' & _).
  exists w1, work, (pause_events (CONTADOR_SUCESSO w1)). cbv zeta.
  split; [exact He|]. split; [exact Hj|]. split; [exact Hs|].
  split; [exact Ht|]. split; [exact Hj'|]. split; [reflexivity|].
  destruct (Q.max_spec 0 (60 - (clock w1 - clock w))) as [[Hlt Hm]|[Hge Hm]];
    rewrite Hm; (split; [|split]); intros; lra.
Qed.

Lemma pacing_floor_witness :
  let w := boot None 0 in
  let w' := snd (iteration Sample.healthy [] "a.com.br" w) in
  exists w1 work tail,
    let elapsed := (clock w1 - clock w)%Q in
    let tempo_espera := Qmax 0 (60 - elapsed)%Q in
    enrich Sample.healthy "a.com.br" (snd (logging INFO (Processing "a.com.br") w)) =
      (Ok tt, w1) /\
    journal w1 = journal w ++ Log INFO (Processing "a.com.br") :: work /\
    In (Sleep 10) work /\
    (elapsed == duration work)%Q /\
    journal w' = journal w1 ++ Sleep tempo_espera :: tail /\
    tail = pause_events (CONTADOR_SUCESSO w1) /\
    (60 <= elapsed + tempo_espera)%Q /\
    (elapsed <= 60 -> elapsed + tempo_espera == 60)%Q /\
    (60 <= elapsed -> tempo_espera == 0)%Q.
Proof.
  apply (pacing_floor Sample.healthy [] "a.com.br" (boot None 0)); reflexivity.
Defined.

Lemma pause_events_due (contador : Z) :
  (0 < contador)%Z -> (contador mod 5 = 0)%Z ->
  pause_events contador = [Log INFO (ExtendedPause 5 contador); Sleep 300].
Proof.
  intros Hpos Hmod. unfold pause_events, pause_due.
  apply Z.ltb_lt in Hpos. apply Z.eqb_eq in Hmod. now rewrite Hpos, Hmod.
Qed.

Lemma pause_events_not_due (contador : Z) :
  (contador mod 5 <> 0)%Z -> pause_events contador = [].
Proof.
  intros Hmod. unfold pause_events, pause_due.
  apply Z.eqb_neq in Hmod. rewrite Hmod. now rewrite andb_false_r.
Qed.

Lemma pause_events_none_yet (contador : Z) :
  (contador <= 0)%Z -> pause_events contador = [].
Proof.
  intros Hle. unfold pause_events, pause_due.
  apply Z.ltb_ge in Hle. now rewrite Hle.
Qed.

(** C2, as the source has it.  The counter of successful writes is
    process-wide and never reset: it moves only by the table rewrites.  In
    a turn whose write brings it to a multiple of 5 the 300-second pause
    follows the 60-second floor sleep of that turn (floor sleep, log line,
    pause); while the counter is zero or not a multiple of 5 a turn ends
    with its floor sleep. *)
Theorem extended_pause_after_floor chk service :
  (forall input_file w,
      let w' := snd (main chk service input_file w) in
      exists new,
        journal w' = journal w ++ new /\
        CONTADOR_SUCESSO w' = (CONTADOR_SUCESSO w + writes new)%Z) /\
  (forall existentes dominio w w',
      domain_in dominio existentes = false ->
      iteration service existentes dominio w = (Ok tt, w') ->
      (0 <= CONTADOR_SUCESSO w)%Z ->
      exists w1 work,
        let sucessos := CONTADOR_SUCESSO w1 in
        let tempo_espera := Qmax 0 (60 - (clock w1 - clock w))%Q in
        journal w1 = journal w ++ Log INFO (Processing dominio) :: work /\
        sucessos = (CONTADOR_SUCESSO w + writes work)%Z /\
        CONTADOR_SUCESSO w' = sucessos /\
        ((0 < writes work)%Z -> (sucessos mod 5 = 0)%Z ->
         journal w' =
           journal w1 ++
           [Sleep tempo_espera; Log INFO (ExtendedPause 5 sucessos); Sleep 300]) /\
        ((sucessos mod 5 <> 0)%Z ->
         journal w' = journal w1 ++ [Sleep tempo_espera]) /\
        ((sucessos <= 0)%Z ->
         journal w' = journal w1 ++ [Sleep tempo_espera])).
Proof.
  split.
  - intros input_file w w'.
    destruct (advances_main chk service input_file w) as (new & Hj & Hc & _).
    exists new. auto.
  - intros existentes dominio w w' Hin H Hpos.
    destruct (iteration_shape service existentes dominio w w' Hin H)
      as (w1 & work & _ & Hj & _ & _ & Hc & Hj' & Hc').
    exists w1, work. cbv zeta.
    split; [exact Hj|]. split; [exact Hc|]. split; [exact Hc'|].
    split; [|split].
    + intros Hw Hmod. rewrite Hj', pause_events_due; [reflexivity|lia|exact Hmod].
    + intros Hmod. rewrite Hj', pause_events_not_due; [reflexivity|exact Hmod].
    + intros Hle. rewrite Hj', pause_events_none_yet; [reflexivity|exact Hle].
Qed.

Lemma extended_pause_after_floor_witness :
  let w := snd (main Urllib.any_brackets Sample.healthy
                     (Some [["domain"]; ["a.com.br"]; ["b.com.br"]; ["c.com.br"];
                            ["d.com.br"]])
                     (boot None 0)) in
  let w' := snd (iteration Sample.healthy (domains_of w) "e.com.br" w) in
  exists w1 work,
    let sucessos := CONTADOR_SUCESSO w1 in
    let tempo_espera := Qmax 0 (60 - (clock w1 - clock w))%Q in
    journal w1 = journal w ++ Log INFO (Processing "e.com.br") :: work /\
    sucessos = (CONTADOR_SUCESSO w + writes work)%Z /\
    CONTADOR_SUCESSO w' = sucessos /\
    ((0 < writes work)%Z -> (sucessos mod 5 = 0)%Z ->
     journal w' =
       journal w1 ++
       [Sleep tempo_espera; Log INFO (ExtendedPause 5 sucessos); Sleep 300]) /\
    ((sucessos mod 5 <> 0)%Z ->
     journal w' = journal w1 ++ [Sleep tempo_espera]) /\
    ((sucessos <= 0)%Z ->
     journal w' = journal w1 ++ [Sleep tempo_espera]).
Proof.
  intros w w'.
  apply (proj2 (extended_pause_after_floor Urllib.any_brackets Sample.healthy)
               (domains_of w) "e.com.br" w w').
  - vm_compute. reflexivity.
  - vm_compute. reflexivity.
  - vm_compute. discriminate.
Defined.

(** A turn that ends with the counter at zero: no pause, although zero is
    a multiple of 5. *)
Example no_pause_before_first_write :
  let w := snd (iteration Sample.anonymous [] "a.com.br" (boot None 0)) in
  CONTADOR_SUCESSO w = 0%Z /\
  journal w =
    [Log INFO (Processing "a.com.br");
     Request "https://rdap.registro.br/domain/a.com.br" 2;
     Sleep 10;
     Log INFO (RdapRetrieved "a.com.br");
     Log WARNING (NotAValidCnpj "a.com.br");
     Sleep 48].
Proof. vm_compute. split; reflexivity. Qed.

(** C2 as stated fails.  Five domains are stored and a sixth is unknown to
    RDAP: the pause that the fifth write triggers comes after the floor
    sleep of its turn, not before, and a second pause ends the turn of the
    sixth domain, which wrote nothing. *)
Lemma extended_pause_counterexample :
  let w := snd (main Urllib.any_brackets Sample.flaky Sample.six_domains (boot None 0)) in
  CONTADOR_SUCESSO w = 5%Z /\
  writes (firstn 47 (journal w)) = 5%Z /\
  skipn 47 (journal w) =
    [Log INFO (RowSaved "e.com.br"); Log INFO (InfoSaved "e.com.br");
     Sleep 35; Log INFO (ExtendedPause 5 5); Sleep 300;
     Log INFO (Processing "f.com.br");
     Request "https://rdap.registro.br/domain/f.com.br" 1;
     Log ERROR_LEVEL (RdapRequestFailed "f.com.br" "404 Client Error");
     Sleep 10;
     Log ERROR_LEVEL (RdapError "f.com.br" (JStr "404 Client Error"));
     Sleep 49; Log INFO (ExtendedPause 5 5); Sleep 300].
Proof. vm_compute. repeat split. Qed.

(** ** Identifier gating *)

Lemma prefix_app (p s : string) : String.prefix p (p ++ s) = true.
Proof.
  induction p as [|c p IH]; simpl.
  - now destruct s.
  - destruct (Ascii.ascii_dec c c) as [_|Hne]; [exact IH|congruence].
Qed.

(** What follows the tax-registry request in [lookup_company]. *)
Lemma advances_after_cnpj_request (dominio : string) (info : key_info)
      (cnpj : string) (resposta : outcome) :
  keeps advances
    (receita_info <~
       match resposta with
       | Payload doc => ret doc
       | RequestException e =>
           logging ERROR_LEVEL (CnpjRequestFailed cnpj e) ;;;
           ret (JDict [("error", JStr e)])
       end ;;
     time_sleep 10 ;;;
     if succeeded receita_info then store dominio info receita_info
     else
       err <~ lift (error_of receita_info) ;;
       logging ERROR_LEVEL (ReceitaError dominio err)).
Proof.
  keeps_walk advances_refl advances_trans
    ltac:(auto using advances_store with advances_db).
Qed.

Lemma seq_assoc {A B C} (c : proc A) (k1 : A -> proc B) (k2 : B -> proc C) (w : World) :
  seq (seq c k1) k2 w = seq c (fun a => seq (k1 a) k2) w.
Proof. unfold seq. destruct (c w) as [[a|e] w1]; reflexivity. Qed.

Lemma lookup_company_gate service (dominio : string) (info : key_info) (s : string)
      (w : World) :
  cpf_cnpj info = JStr s ->
  s <> "" ->
  let digits := Text.only_digits s in
  let w' := snd (lookup_company service dominio info w) in
  exists new,
    journal w' = journal w ++ new /\
    (String.length digits = 14 ->
     exists rest,
       new = Request (RECEITAWS_URL ++ digits)
                     (latency (service w (RECEITAWS_URL ++ digits)%string)) :: rest) /\
    (String.length digits <> 14 ->
     new = [Log WARNING (NotAValidCnpj dominio)] /\
     fst (lookup_company service dominio info w) = Ok tt).
Proof.
  intros Hcpf Hs digits w'. subst w'. unfold lookup_company.
  rewrite Hcpf.
  assert (Ht : Py.truthy (JStr s) = true).
  { destruct s; [congruence|reflexivity]. }
  rewrite Ht. unfold seq at 1. unfold lift at 1. simpl sanitize_cnpj. fold digits.
  cbv beta iota.
  destruct (String.length digits =? 14) eqn:Hlen.
  - apply Nat.eqb_eq in Hlen.
    unfold consulta_cnpj. rewrite seq_assoc.
    unfold seq at 1. unfold requests_get at 1. cbv beta iota zeta.
    match goal with
    | |- context [seq (match ?resposta with Payload _ => _ | RequestException _ => _ end) _ ?wa] =>
        destruct (advances_after_cnpj_request dominio info digits resposta wa)
          as (rest & Hj & _)
    end.
    eexists. split; [|split].
    + rewrite Hj. simpl. rewrite <- app_assoc. reflexivity.
    + intros _. eexists. reflexivity.
    + intros Hne. congruence.
  - exists [Log WARNING (NotAValidCnpj dominio)]. split; [reflexivity|]. split.
    + intros Heq. apply Nat.eqb_neq in Hlen. congruence.
    + intros _. split; [reflexivity|].
      unfold seq, lift. cbv beta iota. now rewrite Hlen.
Qed.

(** C7. Identifier gating: sanitisation keeps the digits and nothing else;
    the request to the tax registry is issued exactly when fourteen digits
    remain, and otherwise the turn stops with the warning that the
    identifier is not a valid CNPJ, no call being made. *)
Theorem identifier_gating service :
  sanitize_cnpj (JStr "12.345.678/0001-99") = Ok "12345678000199" /\
  (forall s,
      sanitize_cnpj (JStr s) = Ok (Text.only_digits s) /\
      list_ascii_of_string (Text.only_digits s) =
        filter Text.is_digit (list_ascii_of_string s)) /\
  (forall dominio info s w,
      cpf_cnpj info = JStr s ->
      s <> "" ->
      let digits := Text.only_digits s in
      let w' := snd (lookup_company service dominio info w) in
      exists new,
        journal w' = journal w ++ new /\
        (existsb is_receita_request new = true <-> String.length digits = 14) /\
        (String.length digits = 14 ->
         exists rest,
           new = Request (RECEITAWS_URL ++ digits)
                         (latency (service w (RECEITAWS_URL ++ digits)%string))
                 :: rest) /\
        (String.length digits <> 14 ->
         new = [Log WARNING (NotAValidCnpj dominio)] /\
         fst (lookup_company service dominio info w) = Ok tt)).
Proof.
  split; [reflexivity|]. split.
  - intros s. split; [reflexivity|apply only_digits_filter].
  - intros dominio info s w Hcpf Hs digits w'.
    destruct (lookup_company_gate service dominio info s w Hcpf Hs)
      as (new & Hj & H14 & Hother).
    exists new. split; [exact Hj|]. split; [|split; assumption].
    split.
    + intros Hreq. destruct (Nat.eq_dec (String.length digits) 14) as [|Hne];
        [assumption|].
      destruct (Hother Hne) as [Hnew _]. rewrite Hnew in Hreq. discriminate.
    + intros Hlen. destruct (H14 Hlen) as [rest Hnew]. rewrite Hnew.
      cbn [existsb is_receita_request]. now rewrite prefix_app.
Qed.

Lemma identifier_gating_witness :
  let info := KeyInfo NOT_AVAILABLE (JStr "123.456.789-09") (JStr "Fulano") in
  let w := boot None 0 in
  let digits := Text.only_digits "123.456.789-09" in
  let w' := snd (lookup_company Sample.healthy "fulano.com.br" info w) in
  exists new,
    journal w' = journal w ++ new /\
    (existsb is_receita_request new = true <-> String.length digits = 14) /\
    (String.length digits = 14 ->
     exists rest,
       new = Request (RECEITAWS_URL ++ digits)
                     (latency (Sample.healthy w (RECEITAWS_URL ++ digits)%string))
             :: rest) /\
    (String.length digits <> 14 ->
     new = [Log WARNING (NotAValidCnpj "fulano.com.br")] /\
     fst (lookup_company Sample.healthy "fulano.com.br" info w) = Ok tt).
Proof.
  apply (proj2 (proj2 (identifier_gating Sample.healthy)) "fulano.com.br"
               (KeyInfo NOT_AVAILABLE (JStr "123.456.789-09") (JStr "Fulano"))
               "123.456.789-09" (boot None 0)).
  - reflexivity.
  - discriminate.
Defined.

(** ** The warning of line 205 *)

Lemma truthy_or_not_available_always (v : json) :
  Py.truthy (or_not_available v) = true.
Proof.
  unfold or_not_available. destruct (Py.truthy v) eqn:Hv; [exact Hv|reflexivity].
Qed.

(** Whatever the record, the extractor hands back a truthy [cpf_cnpj]. *)
Lemma extract_key_info_cpf_truthy (rdap_info : json) (info : key_info) :
  extract_key_info rdap_info = Ok info -> Py.truthy (cpf_cnpj info) = true.
Proof.
  unfold extract_key_info. intros H.
  apply bind_ok_inv in H as (tagged & _ & H). destruct tagged.
  - now inversion H.
  - apply bind_ok_inv in H as (? & _ & H).
    apply bind_ok_inv in H as (? & _ & H).
    apply bind_ok_inv in H as (? & _ & H).
    inversion H. apply truthy_or_not_available_always.
Qed.

Lemma silent_refl (w : World) : silent w w.
Proof. exists []. now rewrite app_nil_r. Qed.

Lemma silent_trans (a b c : World) : silent a b -> silent b c -> silent a c.
Proof.
  intros (n1 & Hj1 & Hq1) (n2 & Hj2 & Hq2). exists (n1 ++ n2). split.
  - now rewrite Hj2, Hj1, app_assoc.
  - now rewrite existsb_app, Hq1, Hq2.
Qed.

Lemma silent_emit (e : event) : says_not_found e = false -> keeps silent (emit e).
Proof. intros He w. exists [e]. simpl. now rewrite He. Qed.

Lemma silent_time_sleep (seconds : Q) : keeps silent (time_sleep seconds).
Proof. intros w. now exists [Sleep seconds]. Qed.

Lemma silent_requests_get service (url : string) : keeps silent (requests_get service url).
Proof. intros w. now exists [Request url (latency (service w url))]. Qed.

Lemma silent_save_to_csv (dominio : string) (rdap_info : key_info) (cnpj_info : json) :
  keeps silent (save_to_csv dominio rdap_info cnpj_info).
Proof.
  intros w. rewrite save_to_csv_run.
  destruct (domain_in dominio (domains_of w)).
  - now exists [Log INFO (AlreadyInTable dominio)].
  - destruct (new_row dominio rdap_info cnpj_info) as [r|e]; [|apply silent_refl].
    exists [WriteCsv (table w ++ [r]); Log INFO (RowSaved dominio)]. simpl.
    now rewrite <- app_assoc.
Qed.

Ltac silent_walk :=
  keeps_walk silent_refl silent_trans
    ltac:(first [ apply silent_time_sleep | apply silent_requests_get
                | apply silent_save_to_csv
                | apply silent_emit; reflexivity ]).

Lemma silent_lookup_company service (dominio : string) (info : key_info) :
  Py.truthy (cpf_cnpj info) = true ->
  keeps silent (lookup_company service dominio info).
Proof.
  intros Ht. unfold lookup_company, consulta_cnpj, store, logging. rewrite Ht.
  silent_walk.
Qed.

(** The branch of line 205 is dead: [enrich] never logs "CNPJ not found". *)
Lemma cnpj_not_found_never_logged service (dominio : string) :
  keeps silent (enrich service dominio).
Proof.
  unfold enrich, consulta_rdap, logging.
  apply (keeps_seq _ silent_trans); [silent_walk|]. intros rdap_resultado.
  apply (keeps_seq _ silent_trans); [silent_walk|]. intros _.
  unfold after_rdap, logging. destruct (succeeded rdap_resultado); [|silent_walk].
  intros w. unfold seq at 1. unfold lift at 1.
  destruct (extract_key_info rdap_resultado) as [info|e] eqn:Hx; [|apply silent_refl].
  apply extract_key_info_cpf_truthy in Hx.
  revert w. change (keeps silent (emit (Log INFO (RdapRetrieved dominio)) ;;;
                                  lookup_company service dominio info)).
  apply (keeps_seq _ silent_trans); [silent_walk|]. intros _.
  now apply silent_lookup_company.
Qed.

(** C9, on the source.  A record retrieved without error that names no tax
    identifier: the extractor returns "Not available", which is truthy, so
    the turn ends in the branch for an identifier that is not a valid CNPJ
    and not in the branch "CNPJ not found"; no request goes to the tax
    registry and the table is not written. *)
Theorem missing_identifier_takes_invalid_branch :
  let w := boot None 0 in
  let run := iteration Sample.anonymous [] "example.com.br" w in
  extract_key_info (JDict [("handle", JStr "example.com.br"); ("entities", JList [])]) =
    Ok (KeyInfo NOT_AVAILABLE NOT_AVAILABLE NOT_AVAILABLE) /\
  fst run = Ok tt /\
  journal (snd run) =
    [Log INFO (Processing "example.com.br");
     Request "https://rdap.registro.br/domain/example.com.br" 2;
     Sleep 10;
     Log INFO (RdapRetrieved "example.com.br");
     Log WARNING (NotAValidCnpj "example.com.br");
     Sleep 48] /\
  ~ In (Log WARNING (CnpjNotFound "example.com.br")) (journal (snd run)) /\
  existsb is_receita_request (journal (snd run)) = false /\
  writes (journal (snd run)) = 0%Z /\
  csv_file (snd run) = None.
Proof.
  vm_compute. repeat split; try reflexivity.
  intros H. repeat (destruct H as [H|H]; [discriminate H|]). exact H.
Qed.

(** * Further properties of the code *)

(** ** The extractor: name, defaults, the registrant's own card *)

(** The name rule of line 55, when it returns. *)
Lemma name_of_vcard_card_name (vcard nm : json) :
  name_of_vcard vcard = Ok nm -> Names.card_name vcard = nm.
Proof.
  unfold name_of_vcard, Names.card_name, Names.size.
  destruct (Py.len vcard) as [n|e]; simpl; [|discriminate].
  destruct (1 <? n); simpl; [|intros H; now inversion H].
  destruct (Py.index vcard 1) as [fn|e]; simpl; [|discriminate].
  destruct (Py.len fn) as [m|e]; simpl; [|discriminate].
  destruct (3 <? m); simpl; [|intros H; now inversion H].
  now intros ->.
Qed.

Lemma scan_entity_name (entity : json) (st st' : key_info) :
  scan_entity entity st = Ok st' ->
  name st' = last (Names.entity_names entity) (name st).
Proof.
  unfold scan_entity. intros H.
  apply bind_ok_inv in H as (roles & Hroles & H).
  apply bind_ok_inv in H as (reg & Hreg & H).
  apply bind_ok_inv in H as (st1 & Hst1 & H).
  apply bind_ok_inv in H as (subs & _ & H).
  apply bind_ok_inv in H as (subl & _ & H).
  apply bind_ok_inv in H as (email & _ & H).
  inversion H; subst; clear H. simpl.
  unfold Names.entity_names, Scan.is_registrant.
  rewrite Hroles. simpl. rewrite Hreg. simpl.
  destruct reg.
  - apply bind_ok_inv in Hst1 as (vcard & Hvcard & Hst1).
    apply bind_ok_inv in Hst1 as (nm & Hnm & Hst1).
    apply bind_ok_inv in Hst1 as (pids & _ & Hst1).
    apply bind_ok_inv in Hst1 as (pidl & _ & Hst1).
    apply bind_ok_inv in Hst1 as (cpf & _ & Hst1).
    inversion Hst1; subst; clear Hst1. simpl.
    unfold vcard_of in Hvcard. unfold Names.card. rewrite Hvcard. simpl.
    symmetry. now apply name_of_vcard_card_name.
  - now inversion Hst1.
Qed.

Lemma scan_entities_name (entities : list json) :
  forall st st',
    Py.for_each entities scan_entity st = Ok st' ->
    name st' = last (flat_map Names.entity_names entities) (name st).
Proof.
  induction entities as [|entity entities IH]; intros st st' H; simpl in H.
  - now inversion H.
  - apply bind_ok_inv in H as (st1 & Hst1 & H).
    apply scan_entity_name in Hst1. apply IH in H.
    simpl flat_map. now rewrite last_app_default, <- Hst1.
Qed.

(** The name rule on a card given by its rows: it returns. *)
Lemma name_of_rows (rows : list (list json)) :
  name_of_vcard (JList (map JList rows)) = Ok (Names.rows_name rows).
Proof.
  destruct rows as [|r0 [|r1 rest]]; try reflexivity.
  destruct r1 as [|a [|b [|c [|d r]]]]; reflexivity.
Qed.

Lemma scan_registrant (rows : list (list json)) (st : key_info) :
  scan_entity (Names.registrant rows) st =
  Ok (KeyInfo (email_rdap st) (cpf_cnpj st) (Names.rows_name rows)).
Proof.
  unfold scan_entity, Names.registrant, vcard_of.
  cbn [Py.get Py.lookup String.eqb Ascii.eqb Bool.eqb bind Py.str_in existsb Py.eq_str
       orb Py.index nth_error].
  rewrite name_of_rows. reflexivity.
Qed.

Lemma scan_registrants (cards : list (list (list json))) :
  forall st,
    Py.for_each (map Names.registrant cards) scan_entity st =
    Ok (KeyInfo (email_rdap st) (cpf_cnpj st)
                (last (map Names.rows_name cards) (name st))).
Proof.
  induction cards as [|rows cards IH]; intros st; [now destruct st|].
  cbn [map Py.for_each]. rewrite scan_registrant. cbn [bind].
  rewrite IH. cbn [email_rdap cpf_cnpj name]. now rewrite last_cons.
Qed.

(** X1. The registrant name is read from the last registrant entity in
    scan order: each registrant overwrites it, with "Not available" when
    its card has no second row of four elements.  On a record made of
    registrants that have a card, whatever its rows, extraction returns. *)
Theorem registrant_name_last_registrant :
  (forall rdap_info info,
      Py.str_in "error" rdap_info = Ok false ->
      extract_key_info rdap_info = Ok info ->
      name info = or_not_available (last (Names.names rdap_info) JNull)) /\
  (forall cards,
      extract_key_info (Names.record cards) =
      Ok (KeyInfo NOT_AVAILABLE NOT_AVAILABLE
                  (or_not_available (last (map Names.rows_name cards) JNull)))).
Proof.
  split.
  - unfold extract_key_info. intros rdap_info info Herr H.
    rewrite Herr in H. simpl in H.
    apply bind_ok_inv in H as (es & Hes & H).
    apply bind_ok_inv in H as (el & Hel & H).
    apply bind_ok_inv in H as (st & Hst & H).
    inversion H; subst; clear H. simpl.
    apply scan_entities_name in Hst. simpl in Hst.
    unfold Names.names, Scan.entities. rewrite Hes. simpl. rewrite Hel. simpl.
    now rewrite Hst.
  - intros cards. unfold extract_key_info, Names.record.
    cbn [Py.str_in Py.lookup String.eqb Ascii.eqb Bool.eqb bind Py.get Py.iter].
    rewrite scan_registrants. reflexivity.
Qed.

(** Two registrants, the second with a card of one row: the name of the
    first is overwritten by the default. *)
Lemma registrant_name_last_registrant_witness :
  let rdap_info :=
    Names.record [[[JStr "version"; JDict []; JStr "text"; JStr "4.0"];
                   [JStr "fn"; JDict []; JStr "text"; JStr "ACME LTDA"]];
                  [[JStr "version"; JDict []; JStr "text"; JStr "4.0"]]] in
  exists info,
    extract_key_info rdap_info = Ok info /\
    Names.names rdap_info = [JStr "ACME LTDA"; JStr "Not available"] /\
    name info = JStr "Not available".
Proof.
  intros rdap_info. eexists. split; [reflexivity|]. split; [reflexivity|].
  apply (proj1 registrant_name_last_registrant rdap_info _ eq_refl eq_refl).
Defined.

(** X2. Whatever the record, none of the three fields the extractor
    returns is null, empty, zero or false. *)
Theorem extracted_fields_truthy (rdap_info : json) (info : key_info) :
  extract_key_info rdap_info = Ok info ->
  Py.truthy (email_rdap info) = true /\
  Py.truthy (cpf_cnpj info) = true /\
  Py.truthy (name info) = true.
Proof.
  unfold extract_key_info. intros H.
  apply bind_ok_inv in H as (tagged & _ & H). destruct tagged.
  - inversion H. repeat split.
  - apply bind_ok_inv in H as (? & _ & H).
    apply bind_ok_inv in H as (? & _ & H).
    apply bind_ok_inv in H as (? & _ & H).
    inversion H. simpl. repeat split; apply truthy_or_not_available_always.
Qed.

Lemma extracted_fields_truthy_witness :
  Py.truthy (JStr "second@acme.com.br") = true /\
  Py.truthy (JStr "12.345.678/0001-99") = true /\
  Py.truthy (JStr "ACME LTDA") = true.
Proof.
  apply (extracted_fields_truthy Sample.two_contacts
           (KeyInfo (JStr "second@acme.com.br") (JStr "12.345.678/0001-99")
                    (JStr "ACME LTDA"))).
  reflexivity.
Defined.

(** X3. The e-mail is read from nested entities only: when no top-level
    entity has sub-entities the field is "Not available", whatever the
    entities' own cards hold. *)
Theorem email_needs_sub_entity (rdap_info : json) (info : key_info) :
  Py.str_in "error" rdap_info = Ok false ->
  extract_key_info rdap_info = Ok info ->
  (forall entity, In entity (Scan.entities rdap_info) -> Scan.sub_entities entity = []) ->
  email_rdap info = NOT_AVAILABLE.
Proof.
  intros Herr H Hnone.
  destruct (extract_key_info_scans rdap_info info Herr H) as [_ He].
  rewrite He. unfold Scan.emails.
  replace (flat_map Scan.entity_emails (Scan.entities rdap_info)) with (@nil json);
    [reflexivity|].
  symmetry. induction (Scan.entities rdap_info) as [|e es IH]; [reflexivity|].
  simpl. unfold Scan.entity_emails at 1. rewrite (Hnone e) by now left.
  simpl. apply IH. intros e' He'. apply Hnone. now right.
Qed.

Lemma email_needs_sub_entity_witness :
  exists info,
    extract_key_info Fixtures.own_card_email = Ok info /\
    email_rdap info = JStr "Not available".
Proof.
  eexists. split; [reflexivity|].
  apply (email_needs_sub_entity Fixtures.own_card_email _ eq_refl eq_refl).
  simpl. intros entity [<-|[]]. reflexivity.
Defined.

(** ** The formatter and the row *)

(** X4. On a dict the formatter always returns a dict with exactly the
    thirteen keys, each holding the field of the input or its default, and
    formatting that dict again changes nothing; on anything else it raises
    AttributeError. *)
Theorem format_cnpj_info_shape (info : json) :
  match info with
  | JDict kvs =>
      exists fields,
        format_cnpj_info info = Ok (JDict fields) /\
        map fst fields = FORMATTED_KEYS /\
        Forall (fun k => Py.lookup k fields = Some (field_or_default k kvs))
               (removelast FORMATTED_KEYS) /\
        Py.lookup "qsa" fields =
          Some (match Py.lookup "qsa" kvs with Some v => v | None => JList [] end) /\
        format_cnpj_info (JDict fields) = Ok (JDict fields)
  | _ => format_cnpj_info info = Raise AttributeError
  end.
Proof.
  destruct info as [| | | | |kvs]; try reflexivity.
  eexists. split; [reflexivity|]. split; [reflexivity|]. split; [|split; reflexivity].
  simpl removelast. repeat constructor.
Qed.

(** X5. Partner projection: only the first two entries of the partner list
    reach the row, each through its "nome" and "qual" with the default;
    missing entries give "Not available". *)
Theorem partner_projection (dominio : string) (rdap_info : key_info)
        (kvs : list (string * json)) (qsa : list json) :
  field_or_default "qsa" kvs = JList qsa \/
  (Py.lookup "qsa" kvs = None /\ qsa = []) ->
  match qsa with
  | [] =>
      exists r, new_row dominio rdap_info (JDict kvs) = Ok r /\
        Partner_1_Name r = NOT_AVAILABLE /\ Partner_1_Qualification r = NOT_AVAILABLE /\
        Partner_2_Name r = NOT_AVAILABLE /\ Partner_2_Qualification r = NOT_AVAILABLE
  | [JDict p1] =>
      exists r, new_row dominio rdap_info (JDict kvs) = Ok r /\
        Partner_1_Name r = field_or_default "nome" p1 /\
        Partner_1_Qualification r = field_or_default "qual" p1 /\
        Partner_2_Name r = NOT_AVAILABLE /\ Partner_2_Qualification r = NOT_AVAILABLE
  | JDict p1 :: JDict p2 :: _ =>
      exists r, new_row dominio rdap_info (JDict kvs) = Ok r /\
        Partner_1_Name r = field_or_default "nome" p1 /\
        Partner_1_Qualification r = field_or_default "qual" p1 /\
        Partner_2_Name r = field_or_default "nome" p2 /\
        Partner_2_Qualification r = field_or_default "qual" p2
  | _ => new_row dominio rdap_info (JDict kvs) = Raise AttributeError
  end.
Proof.
  intros Hq.
  assert (Hget : Py.get (JDict kvs) "qsa" (JList []) = Ok (JList qsa)).
  { simpl. unfold field_or_default in Hq.
    destruct Hq as [Hq|[Hq ->]]; destruct (Py.lookup "qsa" kvs);
      try congruence; try discriminate. }
  unfold new_row. rewrite Hget. simpl in *.
  destruct qsa as [|p1 [|p2 rest]].
  - eexists. split; [reflexivity|]. repeat split.
  - destruct p1; try reflexivity.
    eexists. split; [reflexivity|]. repeat split.
  - destruct p1; try reflexivity.
    destruct p2; try reflexivity.
    eexists. split; [reflexivity|]. repeat split.
Qed.

Lemma partner_projection_witness :
  exists r,
    new_row "acme.com.br" (KeyInfo NOT_AVAILABLE NOT_AVAILABLE NOT_AVAILABLE)
            (JDict Fixtures.three_partners) = Ok r /\
    Partner_1_Name r = JStr "A" /\
    Partner_1_Qualification r = JStr "49-Socio" /\
    Partner_2_Name r = JStr "B" /\
    Partner_2_Qualification r = JStr "Not available".
Proof.
  apply (partner_projection "acme.com.br"
           (KeyInfo NOT_AVAILABLE NOT_AVAILABLE NOT_AVAILABLE)
           Fixtures.three_partners
           [JDict [("nome", JStr "A"); ("qual", JStr "49-Socio")];
            JDict [("nome", JStr "B")];
            JDict [("nome", JStr "C"); ("qual", JStr "05-Administrador")]]).
  left. reflexivity.
Defined.

(** ** The store *)

(** X6. No partial write: when building the row raises, [save_to_csv]
    raises the same exception and leaves the file, the counter and the
    journal as they were. *)
Theorem save_to_csv_raises_untouched (dominio : string) (rdap_info : key_info)
        (cnpj_info : json) (e : pyexn) (w : World) :
  ~ In dominio (domains_of w) ->
  new_row dominio rdap_info cnpj_info = Raise e ->
  save_to_csv dominio rdap_info cnpj_info w = (Raise e, w).
Proof.
  intros Hin Hrow. rewrite save_to_csv_run.
  apply domain_in_false in Hin. now rewrite Hin, Hrow.
Qed.

Lemma save_to_csv_raises_untouched_witness :
  save_to_csv "acme.com.br" (KeyInfo NOT_AVAILABLE NOT_AVAILABLE NOT_AVAILABLE)
              Fixtures.null_partners (boot None 0) =
  (Raise TypeError, boot None 0).
Proof.
  apply (save_to_csv_raises_untouched "acme.com.br"
           (KeyInfo NOT_AVAILABLE NOT_AVAILABLE NOT_AVAILABLE)
           Fixtures.null_partners TypeError (boot None 0)).
  - simpl. auto.
  - reflexivity.
Defined.

(** X7. Append, then look up, on a table whose keys read back as written:
    a successful append returns true, writes the table with the keys it
    had followed by the new row, creates the file if need be and counts
    one success; from then on the domain is in the table and a further
    append of it is refused without touching the file. *)
Theorem save_to_csv_then_present (dominio : string) (rdap_info : key_info)
        (cnpj_info : json) (r : row) (w : World) :
  stable_keys (domains_of w) ->
  stable_key dominio = true ->
  ~ In dominio (domains_of w) ->
  new_row dominio rdap_info cnpj_info = Ok r ->
  let w1 := snd (save_to_csv dominio rdap_info cnpj_info w) in
  fst (save_to_csv dominio rdap_info cnpj_info w) = Ok true /\
  (exists old, csv_file w1 = Some (old ++ [r]) /\ map Domain old = domains_of w) /\
  Domain r = dominio /\
  RDAP_Email r = email_rdap rdap_info /\
  CONTADOR_SUCESSO w1 = (CONTADOR_SUCESSO w + 1)%Z /\
  domains_of w1 = domains_of w ++ [dominio] /\
  stable_keys (domains_of w1) /\
  (forall rdap_info' cnpj_info',
      fst (save_to_csv dominio rdap_info' cnpj_info' w1) = Ok false /\
      csv_file (snd (save_to_csv dominio rdap_info' cnpj_info' w1)) = csv_file w1 /\
      CONTADOR_SUCESSO (snd (save_to_csv dominio rdap_info' cnpj_info' w1)) =
        CONTADOR_SUCESSO w1).
Proof.
  intros Hkeys Hkey Hin Hrow w1. subst w1. rewrite save_to_csv_run.
  apply domain_in_false in Hin. rewrite Hin, Hrow. simpl.
  pose proof (new_row_domain _ _ _ _ Hrow) as Hd.
  assert (Hmail : RDAP_Email r = email_rdap rdap_info).
  { unfold new_row in Hrow.
    repeat (apply bind_ok_inv in Hrow as (? & _ & Hrow)). now inversion Hrow. }
  assert (Hall : map Domain (table w ++ [r]) = domains_of w ++ [dominio]).
  { rewrite map_app. simpl. now rewrite Hd. }
  assert (Hnow : In dominio (map Domain (table w ++ [r]))).
  { rewrite Hall. apply in_or_app. right. now left. }
  split; [reflexivity|]. split; [exists (table w); split; reflexivity|].
  split; [exact Hd|]. split; [exact Hmail|]. split; [reflexivity|].
  split; [exact Hall|]. split.
  { unfold stable_keys, domains_of at 1, table at 1. cbn [csv_file]. rewrite Hall.
    apply Forall_app. split; [exact Hkeys|]. constructor; [exact Hkey|constructor]. }
  intros rdap_info' cnpj_info'. rewrite save_to_csv_run.
  apply domain_in_true in Hnow.
  match goal with
  | |- context [domain_in dominio (domains_of ?W)] =>
      assert (Hdom : domain_in dominio (domains_of W) = true) by exact Hnow;
      rewrite Hdom
  end.
  repeat split.
Qed.

Lemma save_to_csv_then_present_witness :
  let info := KeyInfo (JStr "a@acme.com.br") NOT_AVAILABLE NOT_AVAILABLE in
  let w := boot (Some [Sample.stored "a.com.br"]) 0 in
  let w1 := snd (save_to_csv "acme.com.br" info (JDict Fixtures.three_partners) w) in
  domains_of w1 = ["a.com.br"; "acme.com.br"] /\
  CONTADOR_SUCESSO w1 = 1%Z /\
  fst (save_to_csv "acme.com.br" info (JDict []) w1) = Ok false.
Proof.
  intros info w w1.
  assert (Hkeys : stable_keys (domains_of w))
    by (constructor; [reflexivity|constructor]).
  assert (Hnew : ~ In "acme.com.br" (domains_of w))
    by (intros [H|[]]; discriminate H).
  destruct (save_to_csv_then_present "acme.com.br" info (JDict Fixtures.three_partners)
              _ w Hkeys eq_refl Hnew eq_refl)
    as (_ & _ & _ & _ & Hc & Hd & _ & Hagain).
  split; [exact Hd|]. split; [exact Hc|]. exact (proj1 (Hagain info (JDict []))).
Defined.

(** ** What a whole run keeps *)

Lemma keeps_for_in_members (R : World -> World -> Prop)
      (R_refl : forall w, R w w)
      (R_trans : forall a b c, R a b -> R b c -> R a c)
      {X} (xs : list X) (body : X -> proc unit) :
  (forall x, In x xs -> keeps R (body x)) -> keeps R (for_in xs body).
Proof.
  induction xs as [|x xs IH]; intros Hb; simpl.
  - now apply keeps_ret.
  - apply (keeps_seq _ R_trans); [apply Hb; now left|].
    intros _. apply IH. intros y Hy. apply Hb. now right.
Qed.

(** Unfolds the orchestrator down to the primitives and the store. *)
Ltac keeps_run refl trans prim :=
  unfold main, iteration, pace, enrich, consulta_rdap, after_rdap, lookup_company,
    consulta_cnpj, store;
  keeps_walk refl trans prim.

Lemma counted_refl (w : World) : counted w w.
Proof. unfold counted. lia. Qed.

Lemma counted_trans (a b c : World) : counted a b -> counted b c -> counted a c.
Proof. unfold counted. lia. Qed.

Lemma counted_same (w w' : World) :
  csv_file w' = csv_file w -> CONTADOR_SUCESSO w' = CONTADOR_SUCESSO w -> counted w w'.
Proof. unfold counted, table. intros -> ->. lia. Qed.

Lemma counted_save_to_csv (dominio : string) (rdap_info : key_info) (cnpj_info : json) :
  keeps counted (save_to_csv dominio rdap_info cnpj_info).
Proof.
  intros w. rewrite save_to_csv_run.
  destruct (domain_in dominio (domains_of w)); [now apply counted_same|].
  destruct (new_row dominio rdap_info cnpj_info); [|apply counted_refl].
  unfold counted, table. simpl. rewrite length_app. simpl. lia.
Qed.

Ltac counted_prim :=
  first [ apply counted_save_to_csv
        | intros ?; apply counted_same; reflexivity ].

(** X8. Over a whole run, however it ends, the success counter moves by
    exactly the number of rows the table gained. *)
Theorem counter_counts_rows chk service (input_file : option (list (list string)))
        (w : World) :
  let w' := snd (main chk service input_file w) in
  (Z.of_nat (List.length (table w')) - Z.of_nat (List.length (table w)) =
   CONTADOR_SUCESSO w' - CONTADOR_SUCESSO w)%Z.
Proof.
  revert w. change (keeps counted (main chk service input_file)).
  keeps_run counted_refl counted_trans counted_prim.
Qed.

Lemma adds_for_refl (P : string -> Prop) (w : World) : adds_for P w w.
Proof. exists []. now rewrite app_nil_r. Qed.

Lemma adds_for_trans (P : string -> Prop) (a b c : World) :
  adds_for P a b -> adds_for P b c -> adds_for P a c.
Proof.
  intros (x1 & Ht1 & Hp1) (x2 & Ht2 & Hp2). exists (x1 ++ x2). split.
  - now rewrite Ht2, Ht1, app_assoc.
  - apply Forall_app. now split.
Qed.

Lemma adds_for_same (P : string -> Prop) (w w' : World) :
  csv_file w' = csv_file w -> adds_for P w w'.
Proof. intros H. exists []. unfold table. now rewrite H, app_nil_r. Qed.

Lemma adds_for_save_to_csv (P : string -> Prop) (dominio : string)
      (rdap_info : key_info) (cnpj_info : json) :
  P dominio -> keeps (adds_for P) (save_to_csv dominio rdap_info cnpj_info).
Proof.
  intros Hp w. rewrite save_to_csv_run.
  destruct (domain_in dominio (domains_of w)); [now apply adds_for_same|].
  destruct (new_row dominio rdap_info cnpj_info) as [r|e] eqn:Hrow;
    [|apply adds_for_refl].
  exists [r]. split; [reflexivity|].
  constructor; [|constructor]. now rewrite (new_row_domain _ _ _ _ Hrow).
Qed.

Lemma adds_for_iteration (P : string -> Prop) service (existentes : list string)
      (dominio : string) :
  P dominio -> keeps (adds_for P) (iteration service existentes dominio).
Proof.
  intros Hp.
  keeps_run (adds_for_refl P) (adds_for_trans P)
    ltac:(first [ apply adds_for_save_to_csv; exact Hp
                | intros ?; apply adds_for_same; reflexivity ]).
Qed.

(** A cleaned domain has no TAB, CR or LF: the URL parser deletes them. *)
Lemma delete_unsafe_safe (s : string) :
  Chars.all (fun c => negb (Text.is_unsafe c)) (Text.delete_unsafe s) = true.
Proof.
  induction s as [|c r IH]; [reflexivity|]. simpl.
  destruct (Text.is_unsafe c) eqn:Hc; [exact IH|]. simpl. now rewrite Hc.
Qed.

Lemma clean_domain_safe chk (domain d : string) :
  clean_domain chk domain = Ok d ->
  Chars.all (fun c => negb (Text.is_unsafe c)) d = true.
Proof.
  rewrite clean_domain_steps. intros H.
  apply bind_ok_inv in H as (n & Hn & H). inversion H; subst d; clear H.
  assert (Hnet : n = Text.netloc (Text.delete_unsafe (before_urlparse domain))).
  { unfold urlparse_netloc in Hn. destruct (_ || _); [discriminate|].
    destruct (_ && _); [discriminate|]. now inversion Hn. }
  subst n. apply all_rejoin; [reflexivity|].
  apply all_split, all_netloc, delete_unsafe_safe.
Qed.

Lemma cleaned_stable chk (domains cleaned : list string) (d : string) :
  clean_domains chk domains = Ok cleaned -> In d cleaned -> stable_key d = true.
Proof.
  intros Hc Hd. apply (clean_domains_members _ _ _ Hc) in Hd as (raw & _ & Hraw & Hbr).
  unfold stable_key. rewrite Hbr. simpl. now apply (clean_domain_safe chk raw).
Qed.

(** What a run adds to the table, by the way [main] starts. *)
Lemma main_adds chk service (input_file : option (list (list string))) (w : World) :
  let w' := snd (main chk service input_file w) in
  match read_domains input_file with
  | Some domains =>
      match clean_domains chk domains with
      | Ok cleaned =>
          adds_for (fun d => In d cleaned /\ stable_key d = true) w w'
      | Raise e => w' = w
      end
  | None => csv_file w' = csv_file w
  end.
Proof.
  unfold main. destruct (read_domains input_file) as [domains|]; [|reflexivity].
  destruct (clean_domains chk domains) as [cleaned|e] eqn:Hc; [|reflexivity].
  set (P := fun d => In d cleaned /\ stable_key d = true).
  unfold seq at 1, lift.
  assert (H : keeps (adds_for P)
                (df_existente <~ read_csv ;;
                 for_in cleaned (iteration service (map Domain df_existente)))).
  { apply (keeps_seq _ (adds_for_trans P)).
    - apply (keeps_read_csv _ (adds_for_refl P)).
    - intros df. apply (keeps_for_in_members _ (adds_for_refl P) (adds_for_trans P)).
      intros d Hd. apply adds_for_iteration. split; [exact Hd|].
      now apply (cleaned_stable chk domains cleaned). }
  exact (H w).
Qed.

Lemma adds_for_keys (P : string -> Prop) (w w' : World) :
  adds_for P w w' ->
  exists keys, domains_of w' = domains_of w ++ keys /\ Forall P keys.
Proof.
  intros (added & Ht & Hp). exists (map Domain added). split.
  - unfold domains_of. now rewrite Ht, map_app.
  - now apply Forall_map.
Qed.

Lemma main_keeps_stable chk service (input_file : option (list (list string)))
      (w : World) :
  stable_keys (domains_of w) ->
  stable_keys (domains_of (snd (main chk service input_file w))).
Proof.
  intros Hw. pose proof (main_adds chk service input_file w) as H. cbv zeta in H.
  destruct (read_domains input_file) as [domains|].
  - destruct (clean_domains chk domains) as [cleaned|e].
    + apply adds_for_keys in H as (keys & Hk & Hp). unfold stable_keys. rewrite Hk.
      apply Forall_app. split; [exact Hw|].
      eapply Forall_impl; [|exact Hp]. intros d [_ Hd]. exact Hd.
    + now rewrite H.
  - unfold domains_of, table in *. now rewrite H.
Qed.

Lemma appends_app (e1 e2 : list event) :
  forall a b c, appends a e1 b -> appends b e2 c -> appends a (e1 ++ e2) c.
Proof.
  induction e1 as [|e e1 IH]; intros a b c H1 H2; simpl in *.
  - now subst b.
  - destruct e; try (eapply IH; eassumption).
    destruct H1 as (k & Hk & Hnew & H1). exists k.
    split; [exact Hk|]. split; [exact Hnew|]. eapply IH; eassumption.
Qed.

Lemma append_only_refl (w : World) : append_only w w.
Proof. exists []. now rewrite app_nil_r. Qed.

Lemma append_only_trans (a b c : World) :
  append_only a b -> append_only b c -> append_only a c.
Proof.
  intros (n1 & Hj1 & H1) (n2 & Hj2 & H2). exists (n1 ++ n2). split.
  - now rewrite Hj2, Hj1, app_assoc.
  - eapply appends_app; eassumption.
Qed.

Lemma append_only_logging (lvl : level) (msg : message) :
  keeps append_only (logging lvl msg).
Proof. intros w. now exists [Log lvl msg]. Qed.

Lemma append_only_time_sleep (seconds : Q) : keeps append_only (time_sleep seconds).
Proof. intros w. now exists [Sleep seconds]. Qed.

Lemma append_only_requests_get service (url : string) :
  keeps append_only (requests_get service url).
Proof. intros w. now exists [Request url (latency (service w url))]. Qed.

Lemma append_only_save_to_csv (dominio : string) (rdap_info : key_info)
      (cnpj_info : json) :
  keeps append_only (save_to_csv dominio rdap_info cnpj_info).
Proof.
  intros w. rewrite save_to_csv_run.
  destruct (domain_in dominio (domains_of w)) eqn:Hin.
  - now exists [Log INFO (AlreadyInTable dominio)].
  - destruct (new_row dominio rdap_info cnpj_info) as [r|e] eqn:Hrow;
      [|apply append_only_refl].
    exists [WriteCsv (table w ++ [r]); Log INFO (RowSaved dominio)]. split.
    + simpl. now rewrite <- app_assoc.
    + assert (Hk : map Domain (table w ++ [r]) = domains_of w ++ [dominio]).
      { rewrite map_app. simpl. now rewrite (new_row_domain _ _ _ _ Hrow). }
      exists dominio. split; [exact Hk|]. split; [now apply domain_in_false|].
      exact Hk.
Qed.

Ltac append_only_prim :=
  first [ apply append_only_save_to_csv | apply append_only_logging
        | apply append_only_time_sleep | apply append_only_requests_get ].

(** X9. On a table whose keys read back as written, every rewrite of the
    file during a run, however the run ends, is an append: it writes the
    keys the table had, in their order, followed by one key that was not
    among them; and the keys still read back as written afterwards. *)
Theorem rewrites_append_one_key chk service
        (input_file : option (list (list string))) (w : World) :
  stable_keys (domains_of w) ->
  let w' := snd (main chk service input_file w) in
  exists new,
    journal w' = journal w ++ new /\
    appends (domains_of w) new (domains_of w') /\
    stable_keys (domains_of w').
Proof.
  intros Hw w'.
  assert (H : keeps append_only (main chk service input_file))
    by keeps_run append_only_refl append_only_trans append_only_prim.
  destruct (H w) as (new & Hj & Ha). exists new.
  split; [exact Hj|]. split; [exact Ha|]. now apply main_keeps_stable.
Qed.

Lemma rewrites_append_one_key_witness :
  let w := boot (Some [Sample.stored "a.com.br"]) 0 in
  let w' := snd (main Urllib.any_brackets Sample.healthy
                      (Some [["domain"]; ["a.com.br"]; ["b.com.br"]; ["c.org"]]) w) in
  domains_of w' = ["a.com.br"; "b.com.br"] /\
  exists new,
    journal w' = journal w ++ new /\
    appends (domains_of w) new (domains_of w') /\
    stable_keys (domains_of w').
Proof.
  intros w w'. split; [vm_compute; reflexivity|].
  apply (rewrites_append_one_key Urllib.any_brackets Sample.healthy
           (Some [["domain"]; ["a.com.br"]; ["b.com.br"]; ["c.org"]]) w).
  constructor; [reflexivity|constructor].
Defined.

(** X10. On a table whose keys read back as written, a run that gets past
    the cleaning only appends keys, and every key it appends is a domain
    of the cleaned input list, so a name that ends in ".br"; when the
    cleaning raises nothing at all happens, and when the input cannot be
    read the file is not touched. *)
Theorem appended_rows_are_cleaned_domains chk service
        (input_file : option (list (list string))) (w : World) :
  stable_keys (domains_of w) ->
  let w' := snd (main chk service input_file w) in
  match read_domains input_file with
  | Some domains =>
      match clean_domains chk domains with
      | Ok cleaned =>
          exists keys,
            domains_of w' = domains_of w ++ keys /\
            Forall (fun d => In d cleaned /\ Text.endswith ".br" d = true) keys /\
            CONTADOR_SUCESSO w' = (CONTADOR_SUCESSO w + Z.of_nat (List.length keys))%Z
      | Raise e => w' = w
      end
  | None => csv_file w' = csv_file w
  end.
Proof.
  intros Hw w'. pose proof (main_adds chk service input_file w) as H. cbv zeta in H.
  fold w' in H.
  destruct (read_domains input_file) as [domains|]; [|exact H].
  destruct (clean_domains chk domains) as [cleaned|e] eqn:Hc; [|exact H].
  destruct H as (added & Ht & Hp). exists (map Domain added). split; [|split].
  - unfold domains_of. now rewrite Ht, map_app.
  - apply Forall_map. eapply Forall_impl; [|exact Hp].
    intros r [Hin _]. split; [exact Hin|].
    apply (clean_domains_members _ _ _ Hc) in Hin as (raw & _ & _ & Hbr). exact Hbr.
  - assert (Hcount : keeps counted (main chk service input_file))
      by keeps_run counted_refl counted_trans counted_prim.
    specialize (Hcount w). fold w' in Hcount. unfold counted in Hcount.
    rewrite Ht, length_app in Hcount. rewrite length_map. lia.
Qed.

Lemma appended_rows_are_cleaned_domains_witness :
  let w := boot (Some [Sample.stored "a.com.br"]) 0 in
  let w' := snd (main Urllib.any_brackets Sample.healthy
                      (Some [["domain"]; ["a.com.br"]; ["b.com.br"]; ["c.org"]]) w) in
  exists keys,
    domains_of w' = domains_of w ++ keys /\
    Forall (fun d => In d ["a.com.br"; "b.com.br"] /\ Text.endswith ".br" d = true) keys /\
    CONTADOR_SUCESSO w' = (CONTADOR_SUCESSO w + Z.of_nat (List.length keys))%Z.
Proof.
  intros w w'.
  apply (appended_rows_are_cleaned_domains Urllib.any_brackets Sample.healthy
           (Some [["domain"]; ["a.com.br"]; ["b.com.br"]; ["c.org"]]) w).
  constructor; [reflexivity|constructor].
Defined.

(** ** Pacing over a whole run *)

Lemma pace_clock (inicio : Q) (w1 : World) :
  exists w',
    pace inicio w1 = (Ok tt, w') /\
    (clock w1 + Qmax 0 (inject_Z ATRASO_BASE - (clock w1 - inicio)) <= clock w')%Q.
Proof.
  unfold pace, seq, time_time, time_sleep, contador. simpl.
  destruct (pause_due (CONTADOR_SUCESSO w1)); simpl; eexists;
    (split; [reflexivity|]); simpl;
    generalize (Qmax 0 (inject_Z ATRASO_BASE - (clock w1 - inicio))); intros q;
    unfold inject_Z; lra.
Qed.

(** A turn that processes a domain and returns lasts a minute or more. *)
Lemma iteration_minute service (existentes : list string) (dominio : string)
      (w w' : World) :
  domain_in dominio existentes = false ->
  iteration service existentes dominio w = (Ok tt, w') ->
  (clock w + 60 <= clock w')%Q.
Proof.
  intros Hin H. unfold iteration in H. rewrite Hin in H.
  unfold seq at 1 in H. unfold time_time at 1 in H.
  unfold seq at 1 in H.
  set (w0 := snd (logging INFO (Processing dominio) w)).
  change (logging INFO (Processing dominio) w) with (Ok tt, w0) in H.
  unfold seq at 1 in H.
  destruct (enrich service dominio w0) as [[[]|e] w1]; [|discriminate].
  destruct (pace_clock (clock w) w1) as (w'' & Hp & Hc).
  rewrite Hp in H. inversion H; subst w''. clear H.
  change (inject_Z ATRASO_BASE) with 60%Q in Hc.
  destruct (Q.max_spec 0 (60 - (clock w1 - clock w))) as [[Hlt Hm]|[Hge Hm]];
    rewrite Hm in Hc; lra.
Qed.

Lemma for_in_minutes service (existentes : list string) (dominios : list string) :
  forall w w',
    for_in dominios (iteration service existentes) w = (Ok tt, w') ->
    (clock w + inject_Z (60 * Z.of_nat (List.length (pending existentes dominios)))
     <= clock w')%Q.
Proof.
  induction dominios as [|d ds IH]; intros w w' H.
  - simpl in H. inversion H. unfold pending. simpl. unfold inject_Z. lra.
  - simpl for_in in H. unfold seq at 1 in H.
    destruct (iteration service existentes d w) as [[[]|e] w1] eqn:Hit;
      [|discriminate].
    apply IH in H. unfold pending in *. simpl filter.
    destruct (domain_in d existentes) eqn:Hin; simpl negb; cbv iota.
    + apply domain_in_true in Hin.
      rewrite (iteration_skipped service existentes d w Hin) in Hit.
      inversion Hit; subst w1. simpl in H. exact H.
    + apply (iteration_minute service existentes d w w1 Hin) in Hit.
      simpl List.length. rewrite Nat2Z.inj_succ. unfold Z.succ.
      rewrite Z.mul_add_distr_l, inject_Z_plus.
      change (inject_Z (60 * 1)) with 60%Q.
      revert H. generalize (inject_Z (60 * Z.of_nat (List.length
        (filter (fun d0 => negb (domain_in d0 existentes)) ds)))).
      intros k H. lra.
Qed.

(** X11. A run that returns takes at least sixty seconds for every cleaned
    domain that was not in the table when it started. *)
Theorem run_takes_a_minute_per_domain chk service
        (input_file : option (list (list string))) (domains : list string)
        (w w' : World) :
  read_domains input_file = Some domains ->
  main chk service input_file w = (Ok tt, w') ->
  exists cleaned,
    clean_domains chk domains = Ok cleaned /\
    (clock w +
     inject_Z (60 * Z.of_nat (List.length (pending (domains_of w) cleaned)))
     <= clock w')%Q.
Proof.
  intros Hread H. unfold main in H. rewrite Hread in H.
  unfold seq at 1, lift in H.
  destruct (clean_domains chk domains) as [cleaned|e]; [|discriminate].
  exists cleaned. split; [reflexivity|].
  unfold seq at 1, read_csv at 1 in H. simpl in H.
  now apply for_in_minutes in H.
Qed.

Lemma run_takes_a_minute_per_domain_witness :
  let w := boot None 0 in
  let w' := snd (main Urllib.any_brackets Sample.flaky Sample.six_domains w) in
  (clock w + 360 <= clock w')%Q.
Proof.
  intros w w'.
  destruct (run_takes_a_minute_per_domain Urllib.any_brackets Sample.flaky
              Sample.six_domains
              ["a.com.br"; "b.com.br"; "c.com.br"; "d.com.br"; "e.com.br"; "f.com.br"]
              w w' eq_refl) as (cleaned & Hc & Hb).
  - vm_compute. reflexivity.
  - vm_compute in Hc. inversion Hc; subst cleaned. exact Hb.
Defined.

(** ** Failures of the two services *)

(** X12. A failed RDAP request: the client logs it and returns an
    error-tagged dict, the ten-second delay still applies, the
    orchestrator logs the error with the description, and the turn goes on
    to pacing with no second request and no write. *)
Theorem rdap_failure_path service (dominio e : string) (w : World) :
  answer (service w (RDAP_URL ++ dominio)%string) = RequestException e ->
  let lat := latency (service w (RDAP_URL ++ dominio)%string) in
  let run := enrich service dominio w in
  fst run = Ok tt /\
  journal (snd run) =
    journal w ++
    [Request (RDAP_URL ++ dominio) lat;
     Log ERROR_LEVEL (RdapRequestFailed dominio e);
     Sleep 10;
     Log ERROR_LEVEL (RdapError dominio (JStr e))] /\
  csv_file (snd run) = csv_file w /\
  CONTADOR_SUCESSO (snd run) = CONTADOR_SUCESSO w /\
  (clock (snd run) == clock w + lat + 10)%Q.
Proof.
  intros Hans lat run. subst run lat.
  unfold enrich, consulta_rdap, seq, requests_get. rewrite Hans. simpl.
  repeat split; try reflexivity.
  now rewrite <- !app_assoc.
Qed.

Lemma rdap_failure_path_witness :
  let w := boot None 0 in
  let run := enrich Sample.flaky "f.com.br" w in
  fst run = Ok tt /\
  journal (snd run) =
    journal w ++
    [Request (RDAP_URL ++ "f.com.br") (latency (Sample.flaky w (RDAP_URL ++ "f.com.br")%string));
     Log ERROR_LEVEL (RdapRequestFailed "f.com.br" "404 Client Error");
     Sleep 10;
     Log ERROR_LEVEL (RdapError "f.com.br" (JStr "404 Client Error"))] /\
  csv_file (snd run) = csv_file w /\
  CONTADOR_SUCESSO (snd run) = CONTADOR_SUCESSO w /\
  (clock (snd run) ==
   clock w + latency (Sample.flaky w (RDAP_URL ++ "f.com.br")%string) + 10)%Q.
Proof.
  apply (rdap_failure_path Sample.flaky "f.com.br" "404 Client Error" (boot None 0)).
  reflexivity.
Defined.

(** X13. A failed tax-registry request for a fourteen-digit identifier:
    the client logs it and returns an error-tagged dict, the ten-second
    delay still applies, the orchestrator logs the error with the
    description, and nothing is written. *)
Theorem receita_failure_path service (dominio : string) (info : key_info)
        (s e : string) (w : World) :
  cpf_cnpj info = JStr s ->
  String.length (Text.only_digits s) = 14 ->
  answer (service w (RECEITAWS_URL ++ Text.only_digits s)%string) = RequestException e ->
  let digits := Text.only_digits s in
  let lat := latency (service w (RECEITAWS_URL ++ digits)%string) in
  let run := lookup_company service dominio info w in
  fst run = Ok tt /\
  journal (snd run) =
    journal w ++
    [Request (RECEITAWS_URL ++ digits) lat;
     Log ERROR_LEVEL (CnpjRequestFailed digits e);
     Sleep 10;
     Log ERROR_LEVEL (ReceitaError dominio (JStr e))] /\
  csv_file (snd run) = csv_file w /\
  CONTADOR_SUCESSO (snd run) = CONTADOR_SUCESSO w.
Proof.
  intros Hcpf Hlen Hans digits lat run. subst run lat digits.
  unfold lookup_company. rewrite Hcpf.
  assert (Ht : Py.truthy (JStr s) = true).
  { destruct s; [discriminate Hlen|reflexivity]. }
  rewrite Ht. unfold seq, lift. simpl sanitize_cnpj.
  cbv beta iota. apply Nat.eqb_eq in Hlen. rewrite Hlen.
  unfold consulta_cnpj, seq, requests_get. rewrite Hans. simpl.
  repeat split; try reflexivity.
  now rewrite <- !app_assoc.
Qed.

Lemma receita_failure_path_witness :
  let info := KeyInfo NOT_AVAILABLE (JStr "12.345.678/0001-99") NOT_AVAILABLE in
  let run := lookup_company Fixtures2.registry_down "acme.com.br" info (boot None 0) in
  fst run = Ok tt /\
  journal (snd run) =
    [] ++
    [Request (RECEITAWS_URL ++ "12345678000199") 1;
     Log ERROR_LEVEL (CnpjRequestFailed "12345678000199" "429 Too Many Requests");
     Sleep 10;
     Log ERROR_LEVEL (ReceitaError "acme.com.br" (JStr "429 Too Many Requests"))] /\
  csv_file (snd run) = None /\
  CONTADOR_SUCESSO (snd run) = 0%Z.
Proof.
  apply (receita_failure_path Fixtures2.registry_down "acme.com.br"
           (KeyInfo NOT_AVAILABLE (JStr "12.345.678/0001-99") NOT_AVAILABLE)
           "12.345.678/0001-99" "429 Too Many Requests" (boot None 0));
    reflexivity.
Defined.

(** ** Exceptions end the run *)

(** X14. A retrieved record on which the extraction raises ends the run at
    once: the exception leaves the loop after the request and its
    ten-second delay, with no floor sleep, no write, and none of the
    remaining domains looked at. *)
Theorem malformed_record_aborts_run service (existentes : list string)
        (dominio : string) (rest : list string) (doc : json) (e : pyexn) (w : World) :
  domain_in dominio existentes = false ->
  let w0 := snd (logging INFO (Processing dominio) w) in
  answer (service w0 (RDAP_URL ++ dominio)%string) = Payload doc ->
  succeeded doc = true ->
  extract_key_info doc = Raise e ->
  let run := for_in (dominio :: rest) (iteration service existentes) w in
  fst run = Raise e /\
  journal (snd run) =
    journal w ++
    [Log INFO (Processing dominio);
     Request (RDAP_URL ++ dominio) (latency (service w0 (RDAP_URL ++ dominio)%string));
     Sleep 10] /\
  csv_file (snd run) = csv_file w /\
  CONTADOR_SUCESSO (snd run) = CONTADOR_SUCESSO w.
Proof.
  intros Hin w0 Hans Hok Hx run. subst run.
  simpl for_in. unfold iteration. rewrite Hin.
  unfold seq, time_time.
  change (logging INFO (Processing dominio) w) with (Ok tt, w0).
  cbv beta iota. unfold enrich, consulta_rdap, seq, requests_get. rewrite Hans.
  unfold ret, time_sleep. cbv beta iota.
  unfold after_rdap. rewrite Hok. unfold seq, lift. rewrite Hx.
  simpl. repeat split; try reflexivity.
  now rewrite <- !app_assoc.
Qed.

Lemma malformed_record_aborts_run_witness :
  let run := main Urllib.any_brackets Fixtures2.malformed
                  (Some [["domain"]; ["a.com.br"]; ["b.com.br"]]) (boot None 0) in
  fst run = Raise IndexError /\
  journal (snd run) =
    [] ++
    [Log INFO (Processing "a.com.br");
     Request (RDAP_URL ++ "a.com.br") 2;
     Sleep 10] /\
  csv_file (snd run) = None /\
  CONTADOR_SUCESSO (snd run) = 0%Z.
Proof.
  apply (malformed_record_aborts_run Fixtures2.malformed [] "a.com.br" ["b.com.br"]
           Sample.registrant_without_card IndexError (boot None 0));
    reflexivity.
Defined.

(** X15. An identifier that is not text (a JSON number, say) is truthy but
    cannot be sanitised: the turn raises TypeError right after the
    "retrieved" log line, before any request to the tax registry. *)
Theorem non_text_identifier_raises service (dominio : string) (doc : json)
        (info : key_info) (w : World) :
  succeeded doc = true ->
  extract_key_info doc = Ok info ->
  (forall s, cpf_cnpj info <> JStr s) ->
  after_rdap service dominio doc w =
  (Raise TypeError,
   MkWorld (csv_file w) (CONTADOR_SUCESSO w) (clock w)
           (journal w ++ [Log INFO (RdapRetrieved dominio)])).
Proof.
  intros Hok Hx Hns. unfold after_rdap. rewrite Hok.
  unfold seq at 1. unfold lift at 1. rewrite Hx.
  unfold seq at 1. unfold logging, emit. cbv beta iota.
  unfold lookup_company. rewrite (extract_key_info_cpf_truthy doc info Hx).
  unfold seq at 1. unfold lift at 1.
  destruct (cpf_cnpj info) as [| | |s| |]; try reflexivity.
  now destruct (Hns s).
Qed.

Lemma non_text_identifier_raises_witness :
  fst (after_rdap Fixtures2.numeric "acme.com.br" Fixtures2.numeric_identifier
                  (boot None 0)) = Raise TypeError.
Proof.
  rewrite (non_text_identifier_raises Fixtures2.numeric "acme.com.br"
             Fixtures2.numeric_identifier
             (KeyInfo NOT_AVAILABLE (JNum (inject_Z 12345678000199)) (JStr "ACME LTDA"))
             (boot None 0)).
  - reflexivity.
  - reflexivity.
  - reflexivity.
  - simpl. discriminate.
Defined.

(** ** What a cleaned domain looks like *)

Lemma lower_char_not_upper (c : ascii) : Chars.is_upper (Text.lower_char c) = false.
Proof.
  destruct c as [b0 b1 b2 b3 b4 b5 b6 b7].
  destruct b0, b1, b2, b3, b4, b5, b6, b7; reflexivity.
Qed.

Lemma lower_is_lower_case (s : string) : Chars.lower_case (Text.lower s) = true.
Proof.
  induction s as [|c r IH]; [reflexivity|].
  unfold Chars.lower_case in *. simpl. now rewrite lower_char_not_upper, IH.
Qed.

Lemma netloc_delimiter_free (s : string) : Chars.delimiter_free (Text.netloc s) = true.
Proof.
  unfold Chars.delimiter_free.
  induction s as [|c r IH]; [reflexivity|].
  simpl. destruct (Ascii.eqb c "/" || Ascii.eqb c "?" || Ascii.eqb c "#") eqn:Hc;
    [reflexivity|].
  simpl. unfold Chars.is_delimiter at 1. now rewrite Hc, IH.
Qed.

Lemma before_urlparse_lower_case (domain : string) :
  Chars.lower_case (before_urlparse domain) = true.
Proof.
  unfold before_urlparse, Chars.lower_case.
  apply all_remove_prefix. unfold Text.rstrip_slash. apply all_rstrip_by.
  destruct (Text.startswith "https://" _);
    [apply all_drop|apply all_remove_prefix]; apply lower_is_lower_case.
Qed.

(** What [urlparse] hands back, when it does, is the host part of its
    argument without TAB, CR and LF. *)
Lemma urlparse_netloc_returns chk (domain netloc : string) :
  urlparse_netloc chk domain = Ok netloc ->
  netloc = Text.netloc (Text.delete_unsafe domain).
Proof.
  unfold urlparse_netloc. destruct (_ || _); [discriminate|].
  destruct (_ && _); [discriminate|]. intros H. now inversion H.
Qed.

Lemma clean_domain_lower_case chk (domain d : string) :
  clean_domain chk domain = Ok d -> Chars.lower_case d = true.
Proof.
  rewrite clean_domain_steps. intros H.
  apply bind_ok_inv in H as (n & Hn & H). inversion H; subst d; clear H.
  apply urlparse_netloc_returns in Hn. subst n.
  unfold Chars.lower_case. apply all_rejoin; [reflexivity|].
  apply all_split, all_netloc, all_delete_unsafe, before_urlparse_lower_case.
Qed.

Lemma clean_domain_delimiter_free chk (domain d : string) :
  clean_domain chk domain = Ok d -> Chars.delimiter_free d = true.
Proof.
  rewrite clean_domain_steps. intros H.
  apply bind_ok_inv in H as (n & Hn & H). inversion H; subst d; clear H.
  apply urlparse_netloc_returns in Hn. subst n.
  unfold Chars.delimiter_free. apply all_rejoin; [reflexivity|].
  apply all_split. apply netloc_delimiter_free.
Qed.

(** X16. When the cleaner returns, every domain of the list it returns
    ends in ".br", has no upper-case letter, carries none of the
    characters [/], [?], [#] and no TAB, CR or LF, has at most three
    labels, and is what the loop body makes of a raw entry of the input. *)
Theorem cleaned_domains_invariant chk (domains cleaned : list string) (d : string) :
  clean_domains chk domains = Ok cleaned ->
  In d cleaned ->
  Text.endswith ".br" d = true /\
  Chars.lower_case d = true /\
  Chars.delimiter_free d = true /\
  Chars.all (fun c => negb (Text.is_unsafe c)) d = true /\
  List.length (Text.split "." d) <= 3 /\
  exists raw, In raw domains /\ clean_domain chk raw = Ok d.
Proof.
  intros Hc Hd.
  apply (clean_domains_members _ _ _ Hc) in Hd as (raw & Hraw & Hd & Hbr).
  split; [exact Hbr|].
  split; [now apply (clean_domain_lower_case chk raw)|].
  split; [now apply (clean_domain_delimiter_free chk raw)|].
  split; [now apply (clean_domain_safe chk raw)|].
  split; [now apply (clean_domain_labels chk raw)|]. now exists raw.
Qed.

Lemma cleaned_domains_invariant_witness :
  let domains :=
    ["  HTTPS://WWW.Exam" ++ String "009" "ple.COM.BR/path?q=1 "; "example.org"]%string in
  Text.endswith ".br" "example.com.br" = true /\
  Chars.lower_case "example.com.br" = true /\
  Chars.delimiter_free "example.com.br" = true /\
  Chars.all (fun c => negb (Text.is_unsafe c)) "example.com.br" = true /\
  List.length (Text.split "." "example.com.br") <= 3 /\
  exists raw, In raw domains /\ clean_domain Urllib.any_brackets raw = Ok "example.com.br".
Proof.
  intros domains.
  apply (cleaned_domains_invariant Urllib.any_brackets domains ["example.com.br"]
           "example.com.br").
  - reflexivity.
  - simpl. auto.
Defined.

(** X17. The cleaner works entry by entry: it distributes over
    concatenation (raising when it raises on either part), so order and
    repetitions of the input survive, and it never returns more entries
    than it was given. *)
Theorem clean_domains_app chk (a b : list string) :
  clean_domains chk (a ++ b) =
    (x <- clean_domains chk a ;; y <- clean_domains chk b ;; Ok (x ++ y)) /\
  match clean_domains chk a with
  | Ok cleaned => List.length cleaned <= List.length a
  | Raise _ => True
  end.
Proof.
  split.
  - induction a as [|d ds IH]; simpl.
    + now destruct (clean_domains chk b).
    + destruct (clean_domain chk d) as [n|e]; simpl; [|reflexivity].
      rewrite IH. destruct (clean_domains chk ds) as [x|e]; simpl; [|reflexivity].
      destruct (clean_domains chk b) as [y|e]; simpl; [|reflexivity].
      now destruct (Text.endswith ".br" n).
  - induction a as [|d ds IH]; simpl; [lia|].
    destruct (clean_domain chk d) as [n|e]; simpl; [|exact I].
    destruct (clean_domains chk ds) as [x|e]; simpl; [|exact I].
    destruct (Text.endswith ".br" n); simpl; lia.
Qed.

(** X18. Sanitising is idempotent and never lengthens: what it returns is
    returned unchanged when sanitised again. *)
Theorem sanitize_cnpj_idempotent (s t : string) :
  sanitize_cnpj (JStr s) = Ok t ->
  sanitize_cnpj (JStr t) = Ok t /\ String.length t <= String.length s.
Proof.
  simpl. intros H. inversion H; subst; clear H. split.
  - f_equal. induction s as [|c r IH]; simpl; [reflexivity|].
    destruct (Text.is_digit c) eqn:Hc; simpl; [now rewrite Hc, IH|exact IH].
  - induction s as [|c r IH]; simpl; [lia|].
    destruct (Text.is_digit c); simpl; lia.
Qed.

Lemma sanitize_cnpj_idempotent_witness :
  sanitize_cnpj (JStr "12345678000199") = Ok "12345678000199" /\
  String.length "12345678000199" <= String.length "12.345.678/0001-99".
Proof.
  apply (sanitize_cnpj_idempotent "12.345.678/0001-99" "12345678000199").
  reflexivity.
Defined.

(** ** Where the requests go *)

Lemma only_digits_digits (s : string) : Chars.all Text.is_digit (Text.only_digits s) = true.
Proof.
  induction s as [|c r IH]; [reflexivity|].
  simpl. destruct (Text.is_digit c) eqn:Hc; [|exact IH].
  simpl. now rewrite Hc, IH.
Qed.

Lemma polite_refl (w : World) : polite w w.
Proof. exists []. now rewrite app_nil_r. Qed.

Lemma polite_trans (a b c : World) : polite a b -> polite b c -> polite a c.
Proof.
  intros (n1 & Hj1 & Hp1) (n2 & Hj2 & Hp2). exists (n1 ++ n2). split.
  - now rewrite Hj2, Hj1, app_assoc.
  - now rewrite forallb_app, Hp1, Hp2.
Qed.

Lemma polite_logging (lvl : level) (msg : message) : keeps polite (logging lvl msg).
Proof. intros w. now exists [Log lvl msg]. Qed.

Lemma polite_time_sleep (seconds : Q) : keeps polite (time_sleep seconds).
Proof. intros w. now exists [Sleep seconds]. Qed.

Lemma polite_save_to_csv (dominio : string) (rdap_info : key_info) (cnpj_info : json) :
  keeps polite (save_to_csv dominio rdap_info cnpj_info).
Proof.
  intros w. rewrite save_to_csv_run.
  destruct (domain_in dominio (domains_of w)).
  - now exists [Log INFO (AlreadyInTable dominio)].
  - destruct (new_row dominio rdap_info cnpj_info) as [r|e]; [|apply polite_refl].
    exists [WriteCsv (table w ++ [r]); Log INFO (RowSaved dominio)]. simpl.
    now rewrite <- app_assoc.
Qed.

Lemma polite_rdap_request service (dominio : string) :
  keeps polite (requests_get service (RDAP_URL ++ dominio)).
Proof.
  intros w. eexists. split; [reflexivity|].
  cbn [forallb well_addressed]. now rewrite prefix_app.
Qed.

Lemma polite_receita_request service (digits : string) :
  String.length digits = 14 ->
  Chars.all Text.is_digit digits = true ->
  keeps polite (requests_get service (RECEITAWS_URL ++ digits)).
Proof.
  intros Hlen Hall w. eexists. split; [reflexivity|].
  cbn [forallb well_addressed]. rewrite prefix_app.
  change (Text.drop (String.length RECEITAWS_URL) (RECEITAWS_URL ++ digits))
    with digits.
  apply Nat.eqb_eq in Hlen. rewrite Hlen, Hall. now rewrite orb_true_r.
Qed.

Ltac polite_prim :=
  first [ apply polite_save_to_csv | apply polite_logging | apply polite_time_sleep
        | apply polite_rdap_request ].

Lemma polite_lookup_company service (dominio : string) (info : key_info) :
  keeps polite (lookup_company service dominio info).
Proof.
  unfold lookup_company.
  destruct (Py.truthy (cpf_cnpj info)); [|apply polite_logging].
  intros w. unfold seq at 1. unfold lift at 1.
  destruct (sanitize_cnpj (cpf_cnpj info)) as [digits|e] eqn:Hs; [|apply polite_refl].
  destruct (cpf_cnpj info) as [| | |s| |]; try discriminate Hs.
  simpl in Hs. inversion Hs; subst digits. clear Hs. revert w.
  destruct (String.length (Text.only_digits s) =? 14) eqn:Hlen;
    [|apply polite_logging].
  apply Nat.eqb_eq in Hlen.
  unfold consulta_cnpj, store.
  keeps_walk polite_refl polite_trans
    ltac:(first [ polite_prim
                | apply polite_receita_request;
                  [exact Hlen|apply only_digits_digits] ]).
Qed.

(** X19. Every request of a run goes to the RDAP address of a domain or to
    the tax-registry address followed by exactly fourteen digits. *)
Theorem requests_well_addressed chk service (input_file : option (list (list string)))
        (w : World) :
  let w' := snd (main chk service input_file w) in
  exists new,
    journal w' = journal w ++ new /\ forallb well_addressed new = true.
Proof.
  revert w. change (keeps polite (main chk service input_file)).
  unfold main, iteration, pace, enrich, consulta_rdap, after_rdap.
  keeps_walk polite_refl polite_trans
    ltac:(first [ polite_prim | apply polite_lookup_company ]).
Qed.

(** ** From the company record to the row *)

(** X20. Formatting and row building composed: every text column of the
    row holds the field of the tax-registry record, or "Not available"
    when the record lacks it; the address keeps street, number, district,
    municipality and state in that order; the RDAP e-mail is the
    extracted one. *)
Theorem formatted_row_fields (dominio : string) (rdap_info : key_info)
        (kvs : list (string * json)) (formatted : json) (r : row) :
  format_cnpj_info (JDict kvs) = Ok formatted ->
  new_row dominio rdap_info formatted = Ok r ->
  Domain r = dominio /\
  Registration_Name r = field_or_default "nome" kvs /\
  Trade_Name r = field_or_default "fantasia" kvs /\
  Full_Address r =
    map (fun k => field_or_default k kvs)
        ["logradouro"; "numero"; "bairro"; "municipio"; "uf"] /\
  CEP r = field_or_default "cep" kvs /\
  Phone r = field_or_default "telefone" kvs /\
  Status r = field_or_default "situacao" kvs /\
  Social_Capital r = field_or_default "capital_social" kvs /\
  RDAP_Email r = email_rdap rdap_info /\
  ReceitaWS_Email r = field_or_default "email" kvs.
Proof.
  intros Hf Hr. simpl in Hf. inversion Hf; subst formatted; clear Hf.
  unfold new_row in Hr. simpl in Hr.
  apply bind_ok_inv in Hr as (p1n & _ & Hr).
  apply bind_ok_inv in Hr as (p1q & _ & Hr).
  apply bind_ok_inv in Hr as (p2n & _ & Hr).
  apply bind_ok_inv in Hr as (p2q & _ & Hr).
  inversion Hr; subst r; clear Hr. repeat split.
Qed.

Lemma formatted_row_fields_witness :
  exists formatted r,
    format_cnpj_info Sample.company = Ok formatted /\
    new_row "acme.com.br" (KeyInfo (JStr "a@acme.com.br") NOT_AVAILABLE NOT_AVAILABLE)
            formatted = Ok r /\
    Registration_Name r = JStr "ACME LTDA" /\
    CEP r = JStr "Not available" /\
    RDAP_Email r = JStr "a@acme.com.br".
Proof.
  eexists. eexists. split; [reflexivity|]. split; [reflexivity|].
  destruct (formatted_row_fields "acme.com.br"
              (KeyInfo (JStr "a@acme.com.br") NOT_AVAILABLE NOT_AVAILABLE)
              [("nome", JStr "ACME LTDA"); ("fantasia", JStr "ACME");
               ("situacao", JStr "ATIVA");
               ("qsa", JList [JDict [("nome", JStr "FULANO");
                                     ("qual", JStr "49-Socio")]])]
              _ _ eq_refl eq_refl)
    as (_ & Hn & _ & _ & Hc & _ & _ & _ & Hm & _).
  split; [exact Hn|]. split; [exact Hc|exact Hm].
Defined.

(** ** A domain stored during the run and listed again *)

Lemma counted_iteration service (existentes : list string) (dominio : string) :
  keeps counted (iteration service existentes dominio).
Proof. keeps_run counted_refl counted_trans counted_prim. Qed.

(** A turn that is not skipped opens with the RDAP request. *)
Lemma enrich_starts_with_request service (dominio : string) (w : World) :
  exists rest,
    journal (snd (enrich service dominio w)) =
    journal w ++
    Request (RDAP_URL ++ dominio) (latency (service w (RDAP_URL ++ dominio)%string))
    :: rest.
Proof.
  unfold enrich, consulta_rdap. rewrite !seq_assoc.
  unfold seq at 1. unfold requests_get at 1. cbv beta iota zeta.
  match goal with
  | |- context [seq ?c ?k ?wa] =>
      assert (Hadv : keeps advances (seq c k))
  end.
  { apply (keeps_seq _ advances_trans); [|intros rdap_resultado].
    - destruct (answer _); advances_walk advances_refl.
    - apply (keeps_seq _ advances_trans); [apply advances_time_sleep|intros _].
      apply advances_after_rdap. }
  match goal with
  | |- context [seq ?c ?k ?wa] => destruct (Hadv wa) as (rest & Hrest & _)
  end.
  exists rest. rewrite Hrest. simpl. now rewrite <- app_assoc.
Qed.

(** X21. The skip test uses the table as it was when the run started: a
    domain that is in the table by now but was not then is looked up
    again (log line, RDAP request), and only the store refuses it, so the
    table and the counter are left as they are. *)
Theorem stored_mid_run_is_looked_up_again service (existentes : list string)
        (dominio : string) (w : World) :
  domain_in dominio existentes = false ->
  In dominio (domains_of w) ->
  let w0 := snd (logging INFO (Processing dominio) w) in
  let run := iteration service existentes dominio w in
  (exists rest,
      journal (snd run) =
      journal w ++
      Log INFO (Processing dominio)
      :: Request (RDAP_URL ++ dominio) (latency (service w0 (RDAP_URL ++ dominio)%string))
      :: rest) /\
  table (snd run) = table w /\
  CONTADOR_SUCESSO (snd run) = CONTADOR_SUCESSO w.
Proof.
  intros Hskip Hin w0 run.
  assert (Htable : table (snd run) = table w).
  { destruct (grows_iteration service existentes dominio w) as (a1 & Ht1 & _ & Hfresh).
    destruct (adds_for_iteration (eq dominio) service existentes dominio eq_refl w)
      as (a2 & Ht2 & Hall).
    fold run in Ht1, Ht2. rewrite Ht1 in Ht2. apply app_inv_head in Ht2. subst a2.
    destruct a1 as [|r a1]; [now rewrite Ht1, app_nil_r|].
    apply Forall_inv in Hall.
    exfalso. apply (Hfresh (Domain r)); [now left|]. now rewrite <- Hall. }
  split; [|split; [exact Htable|]].
  - subst run. unfold iteration. rewrite Hskip.
    unfold seq at 1. unfold time_time at 1. unfold seq at 1.
    change (logging INFO (Processing dominio) w) with (Ok tt, w0).
    cbv beta iota. unfold seq at 1.
    destruct (enrich_starts_with_request service dominio w0) as (mid & Hmid).
    assert (Hw0 : journal w0 = journal w ++ [Log INFO (Processing dominio)])
      by reflexivity.
    destruct (enrich service dominio w0) as [[[]|e] w1]; cbn [snd] in Hmid.
    + destruct (advances_pace (clock w) w1) as (tail & Htail & _).
      exists (mid ++ tail). rewrite Htail, Hmid, Hw0.
      rewrite <- !app_assoc. reflexivity.
    + exists mid. cbn [snd]. rewrite Hmid, Hw0.
      rewrite <- !app_assoc. reflexivity.
  - pose proof (counted_iteration service existentes dominio w) as Hc.
    unfold counted in Hc. fold run in Hc. rewrite Htable in Hc. lia.
Qed.

Lemma stored_mid_run_is_looked_up_again_witness :
  let w := snd (main Urllib.any_brackets Sample.healthy (Some [["domain"]; ["a.com.br"]]) (boot None 0)) in
  let w0 := snd (logging INFO (Processing "a.com.br") w) in
  let run := iteration Sample.healthy [] "a.com.br" w in
  (exists rest,
      journal (snd run) =
      journal w ++
      Log INFO (Processing "a.com.br")
      :: Request (RDAP_URL ++ "a.com.br")
                 (latency (Sample.healthy w0 (RDAP_URL ++ "a.com.br")%string))
      :: rest) /\
  table (snd run) = table w /\
  CONTADOR_SUCESSO (snd run) = CONTADOR_SUCESSO w.
Proof.
  intros w w0 run.
  apply (stored_mid_run_is_looked_up_again Sample.healthy [] "a.com.br" w).
  - reflexivity.
  - vm_compute. auto.
Defined.

(** ** The successful turn *)

(** X22. When both services answer, the record yields a fourteen-digit
    identifier and the domain is new, the turn makes exactly two requests,
    each followed by its ten-second delay, appends one row, counts one
    success and logs the save twice (store and orchestrator), in this
    order. *)
Theorem successful_turn service (dominio : string) (doc : json) (info : key_info)
        (s : string) (company formatted : json) (r : row) (w : World) :
  let url1 := (RDAP_URL ++ dominio)%string in
  let url2 := (RECEITAWS_URL ++ Text.only_digits s)%string in
  let lat1 := latency (service w url1) in
  let wa :=
    MkWorld (csv_file w) (CONTADOR_SUCESSO w) (clock w + lat1 + 10)%Q
            (((journal w ++ [Request url1 lat1]) ++ [Sleep 10])
               ++ [Log INFO (RdapRetrieved dominio)]) in
  let lat2 := latency (service wa url2) in
  answer (service w url1) = Payload doc ->
  succeeded doc = true ->
  extract_key_info doc = Ok info ->
  cpf_cnpj info = JStr s ->
  String.length (Text.only_digits s) = 14 ->
  answer (service wa url2) = Payload company ->
  succeeded company = true ->
  format_cnpj_info company = Ok formatted ->
  new_row dominio info formatted = Ok r ->
  ~ In dominio (domains_of w) ->
  let run := enrich service dominio w in
  fst run = Ok tt /\
  csv_file (snd run) = Some (table w ++ [r]) /\
  CONTADOR_SUCESSO (snd run) = (CONTADOR_SUCESSO w + 1)%Z /\
  journal (snd run) =
    journal w ++
    [Request url1 lat1; Sleep 10; Log INFO (RdapRetrieved dominio);
     Request url2 lat2; Sleep 10;
     WriteCsv (table w ++ [r]); Log INFO (RowSaved dominio);
     Log INFO (InfoSaved dominio)].
Proof.
  intros url1 url2 lat1 wa lat2 Hans1 Hok1 Hx Hcpf Hlen Hans2 Hok2 Hf Hrow Hnew run.
  assert (Ht : Py.truthy (JStr s) = true).
  { destruct s; [discriminate Hlen|reflexivity]. }
  apply Nat.eqb_eq in Hlen. apply domain_in_false in Hnew.
  assert (Hrun : run =
    (Ok tt,
     MkWorld (Some (table w ++ [r])) (CONTADOR_SUCESSO w + 1)
             (clock wa + lat2 + 10)%Q
             (((((journal wa ++ [Request url2 lat2]) ++ [Sleep 10])
                  ++ [WriteCsv (table w ++ [r])])
                 ++ [Log INFO (RowSaved dominio)])
                ++ [Log INFO (InfoSaved dominio)]))).
  { subst run. unfold enrich, consulta_rdap, seq, requests_get.
    fold url1. rewrite Hans1. unfold ret, time_sleep. cbv beta iota.
    unfold after_rdap. rewrite Hok1. unfold seq, lift. rewrite Hx.
    unfold logging, emit. cbv beta iota.
    cbn [csv_file CONTADOR_SUCESSO clock journal]. fold lat1. fold wa.
    unfold lookup_company. rewrite Hcpf, Ht. unfold seq, lift.
    simpl sanitize_cnpj. cbv beta iota. rewrite Hlen.
    unfold consulta_cnpj, seq, requests_get. fold url2. rewrite Hans2.
    unfold ret, time_sleep. cbv beta iota. rewrite Hok2.
    unfold store, seq, lift. rewrite Hf.
    rewrite save_to_csv_run. clear Hans2. subst lat2 wa.
    unfold domains_of, table in *. cbn [csv_file CONTADOR_SUCESSO clock journal].
    rewrite Hnew, Hrow. reflexivity. }
  rewrite Hrun. cbn [fst snd csv_file CONTADOR_SUCESSO journal].
  split; [reflexivity|]. split; [reflexivity|]. split; [reflexivity|].
  subst wa. cbn [journal]. now rewrite <- !app_assoc.
Qed.

Lemma successful_turn_witness :
  let run := enrich Sample.healthy "a.com.br" (boot None 0) in
  fst run = Ok tt /\
  CONTADOR_SUCESSO (snd run) = 1%Z /\
  domains_of (snd run) = ["a.com.br"].
Proof.
  intros run.
  pose (info := KeyInfo (JStr "second@acme.com.br") (JStr "12.345.678/0001-99")
                        (JStr "ACME LTDA")).
  pose (formatted := match format_cnpj_info Sample.company with
                     | Ok v => v
                     | Raise _ => JNull
                     end).
  pose (r := match new_row "a.com.br" info formatted with
             | Ok v => v
             | Raise _ => Sample.stored ""
             end).
  destruct (successful_turn Sample.healthy "a.com.br" Sample.two_contacts info
              "12.345.678/0001-99" Sample.company formatted r (boot None 0))
    as (H1 & H2 & H3 & _).
  - reflexivity.
  - reflexivity.
  - reflexivity.
  - reflexivity.
  - reflexivity.
  - reflexivity.
  - reflexivity.
  - reflexivity.
  - reflexivity.
  - intros [].
  - fold run in H1, H2, H3. split; [exact H1|]. split; [exact H3|].
    unfold domains_of, table. rewrite H2. reflexivity.
Defined.

(** ** The warning that is never given *)

(** X23. Over a whole run, whatever the services answer, the warning
    "CNPJ not found in the RDAP reply" of line 205 is never logged. *)
Theorem not_found_warning_never_logged chk service
        (input_file : option (list (list string))) (w : World) :
  let w' := snd (main chk service input_file w) in
  exists new,
    journal w' = journal w ++ new /\ existsb says_not_found new = false.
Proof.
  revert w. change (keeps silent (main chk service input_file)).
  unfold main, iteration, pace, logging.
  keeps_walk silent_refl silent_trans
    ltac:(first [ apply cnpj_not_found_never_logged | apply silent_time_sleep
                | apply silent_emit; reflexivity ]).
Qed.
